(** * LearnerMax backend: item store adapter, item router, error handler

    A shallow embedding of the Express backend of the LearnerMax
    application:

    - [services/dynamodb.ts]   : [DynamoDBService] (getAllItems,
      getItemById, putItem);
    - [routes/items.ts]        : [itemsRouter] (GET /, GET /:id, POST /);
    - [middleware/errorHandler.ts] : [errorHandler].

    JavaScript values are an inductive type, objects are finite maps from
    property names to values, and the asynchronous, throwing code is written
    in a state-and-exception monad over a [world] that holds the DynamoDB
    table, the console, the wall clock and the history of commands handed to
    the document client. *)

From Stdlib Require Import Ascii.
From stdpp Require Import base strings gmap list fin_maps pretty.

Set Warnings "-register-all".
Open Scope string_scope.

(** ** JavaScript values *)

(** The values that can occur in a parsed JSON body, plus [undefined] (what
    reading an absent property yields).  Numbers are the integers: JSON has
    no NaN, and every non-integer number is truthy like a non-zero integer,
    which is all the code observes of a number. *)
Inductive jsval : Type :=
  | JUndefined
  | JNull
  | JBool (b : bool)
  | JNum (z : Z)
  | JStr (s : string)
  | JArr (l : list jsval)
  | JObj (o : gmap string jsval).

Abbreviation jsobj := (gmap string jsval).

(** [o.k] : property read, [undefined] when the property is absent. *)
Definition prop (o : jsobj) (k : string) : jsval := default JUndefined (o !! k).

(** ToBoolean. *)
Definition truthy (v : jsval) : bool :=
  match v with
  | JUndefined | JNull => false
  | JBool b => b
  | JNum z => negb (Z.eqb z 0)
  | JStr s => negb (String.eqb s "")
  | JArr _ | JObj _ => true
  end.

(** [!v] *)
Definition js_not (v : jsval) : bool := negb (truthy v).

(** [!s] for a value statically known to be a string. *)
Definition str_not (s : string) : bool := String.eqb s "".

(** [!s] for an optional string such as [process.env.X]. *)
Definition ostr_not (s : option string) : bool :=
  match s with
  | None => true
  | Some s => str_not s
  end.

(** ToString, as a template literal applies it. *)
Fixpoint js_to_string (v : jsval) : string :=
  match v with
  | JUndefined => "undefined"
  | JNull => "null"
  | JBool b => if b then "true" else "false"
  | JNum z => pretty z
  | JStr s => s
  | JArr l =>
      String.concat ","
        (map (λ x, match x with
                   | JUndefined | JNull => ""
                   | _ => js_to_string x
                   end) l)
  | JObj _ => "[object Object]"
  end.

(** Lifting of optional fields: an absent field reads as [undefined]. *)
Definition of_ostr (s : option string) : jsval :=
  match s with Some s => JStr s | None => JUndefined end.

Definition of_onum (z : option Z) : jsval :=
  match z with Some z => JNum z | None => JUndefined end.

(** ** Errors *)

(** A JavaScript error object, with the optional fields that [ApiError]
    adds to [Error]. *)
Record jserror : Type := JsError {
  err_name : string;
  err_message : string;
  err_statusCode : option Z;
  err_stack : option string
}.

(** [new Error(msg)].  The stack is abstracted to its header line: the
    frames V8 appends below it are source positions of the constructing
    code and carry nothing of any other error object. *)
Definition new_Error (msg : string) : jserror :=
  {| err_name := "Error"; err_message := msg;
     err_statusCode := None; err_stack := Some ("Error: " +:+ msg) |}.

(** ** The world *)

Inductive log_level : Type := LevelLog | LevelInfo | LevelError.

Inductive log_arg : Type :=
  | LStr (s : string)
  | LVal (v : jsval)
  | LErr (e : jserror).

Record log_entry : Type := LogEntry { level : log_level; args : list log_arg }.

(** The commands of [@aws-sdk/lib-dynamodb] that the service builds. *)
Inductive ddb_command : Type :=
  | ScanCommand (TableName : string)
  | GetCommand (TableName : string) (Key : jsobj)
  | PutCommand (TableName : string) (Item : jsobj).

(** The fields of a command output that the service reads. *)
Record ddb_output : Type := DdbOutput {
  Items : option (list jsobj);
  Item : option jsobj
}.

(** - [table]   the records of the single DynamoDB table, by key [id];
    - [console] what was written with [console.log/info/error], oldest first;
    - [sent]    the commands handed to [ddbDocClient.send], oldest first;
    - [clock]   the successive readings of [new Date().toISOString()];
    - [ticks]   how many readings have been taken;
    - [page_items] for the items of a table in scan order, how many of them
      the service puts into the one page (at most 1 MB) that answers a
      [Scan]. *)
Record world : Type := World {
  table : gmap string jsobj;
  console : list log_entry;
  sent : list ddb_command;
  clock : nat → string;
  ticks : nat;
  page_items : list jsobj → nat
}.

(** The elementary changes of the world. *)
Definition w_log (e : log_entry) (w : world) : world :=
  {| table := table w; console := console w ++ [e]; sent := sent w;
     clock := clock w; ticks := ticks w; page_items := page_items w |}.

Definition w_tick (w : world) : world :=
  {| table := table w; console := console w; sent := sent w;
     clock := clock w; ticks := S (ticks w); page_items := page_items w |}.

Definition w_sent (c : ddb_command) (t : gmap string jsobj) (w : world) : world :=
  {| table := t; console := console w; sent := sent w ++ [c];
     clock := clock w; ticks := ticks w; page_items := page_items w |}.

(** ** Computations that read and write the world and may throw *)

Inductive completion (A : Type) : Type :=
  | Normal (a : A)
  | Throws (e : jserror).
Arguments Normal {A} a.
Arguments Throws {A} e.

Definition M (A : Type) : Type := world → completion A * world.

#[local] Instance M_ret : MRet M := λ A a w, (Normal a, w).

#[local] Instance M_bind : MBind M := λ A B f m w,
  match m w with
  | (Normal a, w') => f a w'
  | (Throws e, w') => (Throws e, w')
  end.

(** [throw e] *)
Definition throw {A} (e : jserror) : M A := λ w, (Throws e, w).

(** [try { m } catch (error) { h error }] *)
Definition try_catch {A} (m : M A) (h : jserror → M A) : M A := λ w,
  match m w with
  | (Normal a, w') => (Normal a, w')
  | (Throws e, w') => h e w'
  end.

Definition console_write (lv : log_level) (xs : list log_arg) : M unit := λ w,
  (Normal tt, w_log (LogEntry lv xs) w).

Definition console_log := console_write LevelLog.
Definition console_info := console_write LevelInfo.
Definition console_error := console_write LevelError.

(** [new Date().toISOString()] *)
Definition Date_now_toISOString : M string := λ w,
  (Normal (clock w (ticks w)), w_tick w).

(** ** The DynamoDB table behind [ddbDocClient]

    The service is external; what is modelled of it is the single table with
    string partition key [id] and the three commands the code sends.  A
    command without a table name, or with a key that is absent, not a string
    or the empty string, is rejected with a [ValidationException].  A [Scan]
    is answered with one page: the first [page] items of the table in scan
    order, where [page] is the service's cut at 1 MB; the code sends one
    [Scan] and never asks for the next page.  A [Put] stores the item as it
    is handed over, which is what the document client does with an item that
    holds [undefined] nowhere; it leaves out a top-level attribute whose
    value is [undefined] and refuses an item with [undefined] deeper down.
    Every other way a call can fail (throttling, credentials, network, a
    missing table, item size) is the [net] argument of [send]: [Some e]
    makes the call reject with [e] before it touches the table. *)

Definition key_of (o : jsobj) : option string :=
  match o !! "id" with
  | Some (JStr s) => if str_not s then None else Some s
  | _ => None
  end.

Definition ValidationException : jserror :=
  {| err_name := "ValidationException";
     err_message := "One or more parameter values were invalid";
     err_statusCode := None;
     err_stack := Some "ValidationException: One or more parameter values were invalid" |}.

Definition TableName (c : ddb_command) : string :=
  match c with
  | ScanCommand tn | GetCommand tn _ | PutCommand tn _ => tn
  end.

(** The items of the table in scan order. *)
Definition scan_order (t : gmap string jsobj) : list jsobj := (map_to_list t).*2.

Definition ddb_exec (page : list jsobj → nat) (c : ddb_command)
    (t : gmap string jsobj) : completion ddb_output * gmap string jsobj :=
  if str_not (TableName c) then (Throws ValidationException, t)
  else
    match c with
    | ScanCommand _ =>
        (Normal {| Items := Some (take (page (scan_order t)) (scan_order t));
                   Item := None |}, t)
    | GetCommand _ key =>
        match key_of key with
        | Some i => (Normal {| Items := None; Item := t !! i |}, t)
        | None => (Throws ValidationException, t)
        end
    | PutCommand _ item =>
        match key_of item with
        | Some i => (Normal {| Items := None; Item := None |}, <[i := item]> t)
        | None => (Throws ValidationException, t)
        end
    end.

(** [await ddbDocClient.send(c)] *)
Definition send (net : option jserror) (c : ddb_command) : M ddb_output := λ w,
  match net with
  | Some e => (Throws e, w_sent c (table w) w)
  | None =>
      let (r, t') := ddb_exec (page_items w) c (table w) in (r, w_sent c t' w)
  end.

(** ** [process.env] *)

Record process_env : Type := ProcessEnv {
  SAMPLE_TABLE : option string;
  ENVIRONMENT : option string
}.

(** ** services/dynamodb.ts *)

Module DynamoDBService.
Section Service.

Variable env : process_env.

(** [const tableName = process.env.SAMPLE_TABLE] *)
Definition tableName : option string := SAMPLE_TABLE env.

Definition getAllItems (net : option jserror) : M (list jsobj) :=
  if ostr_not tableName then
    throw (new_Error "SAMPLE_TABLE environment variable is not set")
  else
    try_catch
      (data ← send net (ScanCommand (default "" tableName));
       mret (default [] (Items data)))
      (λ error,
         console_error [LStr "Error getting all items:"; LErr error];;
         throw (new_Error "Failed to retrieve items from database")).

Definition getItemById (net : option jserror) (id : string) : M (option jsobj) :=
  if ostr_not tableName then
    throw (new_Error "SAMPLE_TABLE environment variable is not set")
  else if str_not id then
    throw (new_Error "ID parameter is required")
  else
    try_catch
      (data ← send net (GetCommand (default "" tableName) {[ "id" := JStr id ]});
       mret (Item data))
      (λ error,
         console_error [LStr "Error getting item by id:"; LErr error];;
         throw (new_Error "Failed to retrieve item from database")).

Definition putItem (net : option jserror) (item : jsobj) : M jsobj :=
  if ostr_not tableName then
    throw (new_Error "SAMPLE_TABLE environment variable is not set")
  else if js_not (prop item "id") || js_not (prop item "name") then
    throw (new_Error "Both id and name are required")
  else
    try_catch
      (timestamp ← Date_now_toISOString;
       let itemWithTimestamps : jsobj :=
         <["updatedAt" := JStr timestamp]> (<["createdAt" := JStr timestamp]> item) in
       send net (PutCommand (default "" tableName) itemWithTimestamps);;
       console_log [LStr "Success - item added or updated:";
                    LVal (JObj itemWithTimestamps)];;
       mret itemWithTimestamps)
      (λ error,
         console_error [LStr "Error putting item:"; LErr error];;
         throw (new_Error "Failed to save item to database")).

End Service.
End DynamoDBService.

(** ** Requests and responses *)

(** What the handlers read of an Express request.  [params] holds the
    parameters bound by the route pattern; Express binds every parameter the
    pattern names, so [req.params.id] is a string in the [/:id] handler, and
    it binds [:id] to a path segment that is not empty: a request of
    [GET /:id] has [params req !! "id" = Some i] with [i ≠ ""], which the
    statements about that route take as their hypothesis. *)
Record request : Type := Request {
  method : string;
  path : string;
  headers : jsobj;
  params : gmap string string;
  body : jsobj
}.

Definition req_param (req : request) (k : string) : string :=
  default "" (params req !! k).

(** [json] is the value handed to [res.json]; serialisation leaves out a
    key whose value is [undefined]. *)
Record response : Type := Response {
  status : Z;
  json : jsval
}.

(** [res.json(v)]: the status is Express's default. *)
Definition res_json (v : jsval) : response := {| status := 200; json := v |}.

(** The response with status [n] and JSON value [v]. *)
Definition response_of (n : Z) (v : jsval) : response :=
  {| status := n; json := v |}.

(** The error thrown for a status code that is not in 100..999. *)
Definition invalid_status_code (n : Z) : jserror :=
  {| err_name := "RangeError";
     err_message := "Invalid status code: " +:+ pretty n;
     err_statusCode := None;
     err_stack := Some ("RangeError: Invalid status code: " +:+ pretty n) |}.

(** [res.status(n).json(v)].  A status outside 100..999 is refused with a
    [RangeError] and nothing is sent: Node throws it when the head is
    written, Express 5 already in [res.status], with a longer message. *)
Definition res_status_json (n : Z) (v : jsval) : M response :=
  if (100 <=? n)%Z && (n <=? 999)%Z then mret (response_of n v)
  else throw (invalid_status_code n).

(** ** middleware/errorHandler.ts *)

Definition errorHandler (env : process_env) (err : jserror) (req : request)
    : M response :=
  console_error
    [LStr "Error occurred:";
     LVal (JObj {[ "message" := JStr (err_message err);
                   "stack" := of_ostr (err_stack err);
                   "path" := JStr (path req);
                   "method" := JStr (method req);
                   "statusCode" := of_onum (err_statusCode err) ]})];;
  let statusCode : Z :=
    match err_statusCode err with
    | Some n => if Z.eqb n 0 then 500 else n
    | None => 500
    end%Z in
  let message : string :=
    if str_not (err_message err) then "Internal Server Error" else err_message err in
  let '(statusCode, message) :=
    if String.eqb (err_name err) "ValidationError" then (400%Z, "Validation Error")
    else if String.eqb (err_name err) "CastError" then (400%Z, "Invalid ID format")
    else if String.eqb (err_name err) "JsonWebTokenError" then (401%Z, "Invalid token")
    else (statusCode, message) in
  let isDevelopment : bool :=
    negb (bool_decide (ENVIRONMENT env = Some "prod")) in
  timestamp ← Date_now_toISOString;
  res_status_json statusCode
    (JObj {[ "error" :=
       JObj ((if isDevelopment
              then <["stack" := of_ostr (err_stack err)]>
              else id)
               {[ "message" := JStr message;
                  "statusCode" := JNum statusCode;
                  "timestamp" := JStr timestamp;
                  "path" := JStr (path req) ]}) ]}).

(** ** routes/items.ts *)

Module itemsRouter.
Section Router.

Variable env : process_env.

(** [router.get('/', ...)], the body of the [try] block. *)
Definition get_root (net : option jserror) (req : request) : M response :=
  console_info
    [LStr "Getting all items request received:";
     LVal (JObj {[ "method" := JStr (method req);
                   "path" := JStr (path req);
                   "headers" := JObj (headers req) ]})];;
  items ← DynamoDBService.getAllItems env net;
  console_info
    [LStr ("Successfully retrieved " +:+ pretty (length items) +:+ " items")];;
  mret (res_json (JArr (JObj <$> items))).

(** [router.get('/:id', ...)], the body of the [try] block. *)
Definition get_id (net : option jserror) (req : request) : M response :=
  let id := req_param req "id" in
  console_info
    [LStr "Getting item by ID request received:";
     LVal (JObj {[ "id" := JStr id;
                   "method" := JStr (method req);
                   "path" := JStr (path req) ]})];;
  item ← DynamoDBService.getItemById env net id;
  match item with
  | None =>
      timestamp ← Date_now_toISOString;
      res_status_json 404
        (JObj {[ "error" :=
           JObj {[ "message" := JStr ("Item with id '" +:+ id +:+ "' not found");
                   "statusCode" := JNum 404;
                   "timestamp" := JStr timestamp;
                   "path" := JStr (path req) ]} ]})
  | Some item =>
      console_info [LStr ("Successfully retrieved item with id: " +:+ id)];;
      mret (res_json (JObj item))
  end.

(** [router.post('/', ...)], the body of the [try] block. *)
Definition post_root (net : option jserror) (req : request) : M response :=
  let id := prop (body req) "id" in
  let name := prop (body req) "name" in
  console_info
    [LStr "Create/update item request received:";
     LVal (JObj {[ "body" := JObj (body req);
                   "method" := JStr (method req);
                   "path" := JStr (path req) ]})];;
  if js_not id || js_not name then
    timestamp ← Date_now_toISOString;
    res_status_json 400
      (JObj {[ "error" :=
         JObj {[ "message" := JStr "Both id and name are required in the request body";
                 "statusCode" := JNum 400;
                 "timestamp" := JStr timestamp;
                 "path" := JStr (path req) ]} ]})
  else
    item ← DynamoDBService.putItem env net {[ "id" := id; "name" := name ]};
    console_info
      [LStr ("Successfully created/updated item with id: " +:+ js_to_string id)];;
    mret (res_json (JObj item)).

End Router.
End itemsRouter.

(** ** app.ts: the router mounted at [/api/items], the error handler last *)

Module app.
Section App.

Variable env : process_env.

Definition mount : string := "/api/items".

Fixpoint strip_prefix (pre s : string) : option string :=
  match pre, s with
  | EmptyString, _ => Some s
  | String a pre', String b s' => if Ascii.eqb a b then strip_prefix pre' s' else None
  | String _ _, EmptyString => None
  end.

(** The request as a handler of the mounted router sees it: Express strips
    the mount path from the URL for the time the router runs. *)
Definition router_request (req : request) : request :=
  {| method := method req;
     path := match strip_prefix mount (path req) with
             | Some "" => "/"
             | Some rest => rest
             | None => path req
             end;
     headers := headers req; params := params req; body := body req |}.

(** A route of the router inside the application: the handler's
    [catch (error) { next(error) }] hands the error to [errorHandler], which
    sees the request with its original path. *)
Definition items_route (h : request → M response) (req : request) : M response :=
  try_catch (h (router_request req)) (λ error, errorHandler env error req).

(** GET /api/items *)
Definition GET_items (net : option jserror) : request → M response :=
  items_route (itemsRouter.get_root env net).

(** GET /api/items/{id} *)
Definition GET_item (net : option jserror) : request → M response :=
  items_route (itemsRouter.get_id env net).

(** POST /api/items *)
Definition POST_items (net : option jserror) : request → M response :=
  items_route (itemsRouter.post_root env net).

End App.
End app.


(** ** Vocabulary of the statements *)

(** The table name is set: [!tableName] is false. *)
Definition configured (env : process_env) (tn : string) : Prop :=
  SAMPLE_TABLE env = Some tn ∧ tn ≠ "".

(** [s.includes(sub)] *)
Definition includes (s sub : string) : Prop :=
  ∃ pre post, s = pre +:+ sub +:+ post.

(** The error envelope without a [stack]. *)
Definition envelope_fields (message : string) (statusCode : Z)
    (timestamp path : string) : jsobj :=
  {[ "message" := JStr message;
     "statusCode" := JNum statusCode;
     "timestamp" := JStr timestamp;
     "path" := JStr path ]}.

Definition envelope (fields : jsobj) : jsval := JObj {[ "error" := JObj fields ]}.

(** The response is a 500 whose envelope carries [msg] and [statusCode] 500. *)
Definition answers_500 (resp : response) (msg : string) : Prop :=
  status resp = 500%Z
  ∧ ∃ fields, json resp = envelope fields
      ∧ fields !! "message" = Some (JStr msg)
      ∧ fields !! "statusCode" = Some (JNum 500).

(** The record [putItem] builds from [item] at clock reading [timestamp]. *)
Definition stamped (item : jsobj) (timestamp : string) : jsobj :=
  <["updatedAt" := JStr timestamp]> (<["createdAt" := JStr timestamp]> item).

(** The console lines of the service's [catch] blocks. *)
Definition error_line (label : string) (e : jserror) : log_entry :=
  LogEntry LevelError [LStr label; LErr e].

(** The store call of an adapter operation raises [e]: the service rejects
    the command with [e], or the table rejects it with [e]. *)
Definition raises (net : option jserror) (c : ddb_command)
    (t : gmap string jsobj) (e : jserror) : Prop :=
  match net with
  | Some e' => e' = e
  | None => ∀ page, (ddb_exec page c t).1 = Throws e
  end.

(** Calls of the adapter, each with the outcome the service imposes on its
    store call, and the world after a sequence of them. *)
Inductive adapter_call : Type :=
  | ListAll (net : option jserror)
  | GetById (net : option jserror) (id : string)
  | Upsert (net : option jserror) (item : jsobj).

Definition exec_call (env : process_env) (c : adapter_call) (w : world) : world :=
  match c with
  | ListAll net => (DynamoDBService.getAllItems env net w).2
  | GetById net id => (DynamoDBService.getItemById env net id w).2
  | Upsert net item => (DynamoDBService.putItem env net item w).2
  end.

Definition exec_calls (env : process_env) (cs : list adapter_call) (w : world)
    : world :=
  foldl (λ w c, exec_call env c w) w cs.

(** The call, made in world [w], is a successful write under id [i]. *)
Definition writes (env : process_env) (i : string) (c : adapter_call) (w : world)
    : Prop :=
  match c with
  | Upsert net item =>
      item !! "id" = Some (JStr i)
      ∧ ∃ r, (DynamoDBService.putItem env net item w).1 = Normal r
  | _ => False
  end.

(** No call of the history [cs], run from [w], wrote under id [i]. *)
Fixpoint never_written (env : process_env) (i : string) (cs : list adapter_call)
    (w : world) : Prop :=
  match cs with
  | [] => True
  | c :: cs' => ¬ writes env i c w ∧ never_written env i cs' (exec_call env c w)
  end.

(** The page with which a [Scan] of the table of [w] is answered. *)
Definition one_page (w : world) : list jsobj :=
  take (page_items w (scan_order (table w))) (scan_order (table w)).

(** The whole table goes into one page of a [Scan]. *)
Definition fits_one_page (w : world) : Prop :=
  (length (scan_order (table w)) ≤ page_items w (scan_order (table w)))%nat.

(** The error's own code, if it carries one, is an HTTP error status. *)
Definition error_status (err : jserror) : Prop :=
  ∀ n, err_statusCode err = Some n → (400 ≤ n ≤ 599)%Z.

(** The error has one of the three names that [errorHandler] singles out. *)
Definition named_error (err : jserror) : Prop :=
  err_name err = "ValidationError" ∨ err_name err = "CastError"
  ∨ err_name err = "JsonWebTokenError".

(** The errors that reach [errorHandler] in this application: the [Error]s
    that the service constructs, which the routes hand over with
    [next(error)], and the errors of Express and of its body parsers, which
    carry an HTTP error status (400..599) as their [statusCode].  Each has a
    stack, and none is named [ValidationError], [CastError] or
    [JsonWebTokenError]: nothing in the application constructs an error of
    these names. *)
Definition app_error (err : jserror) : Prop :=
  err_name err ≠ "ValidationError"
  ∧ err_name err ≠ "CastError"
  ∧ err_name err ≠ "JsonWebTokenError"
  ∧ error_status err
  ∧ is_Some (err_stack err).

(** A value that holds [undefined] nowhere: what [JSON.parse] yields, and
    what the document client stores as it is. *)
Inductive defined : jsval → Prop :=
  | defined_null : defined JNull
  | defined_bool b : defined (JBool b)
  | defined_num n : defined (JNum n)
  | defined_str s : defined (JStr s)
  | defined_arr vs : Forall defined vs → defined (JArr vs)
  | defined_obj o : map_Forall (λ _, defined) o → defined (JObj o).

(** ** Sample data *)

Definition sample_env : process_env :=
  {| SAMPLE_TABLE := Some "items-table"; ENVIRONMENT := Some "dev" |}.

Definition sample_clock (n : nat) : string :=
  "2025-01-01T00:00:0" +:+ pretty n +:+ ".000Z".

Definition fresh_world : world :=
  {| table := ∅; console := []; sent := []; clock := sample_clock; ticks := 0;
     page_items := length |}.

Definition sample_request (m p : string) (ps : gmap string string) (b : jsobj)
    : request :=
  {| method := m; path := p; headers := ∅; params := ps; body := b |}.

Definition timeout_error : jserror :=
  {| err_name := "TimeoutError"; err_message := "connect ETIMEDOUT 10.0.0.7:443";
     err_statusCode := None;
     err_stack := Some "TimeoutError: connect ETIMEDOUT 10.0.0.7:443" |}.

(** The error of [express.json()] for a body over the limit. *)
Definition payload_too_large : jserror :=
  {| err_name := "PayloadTooLargeError"; err_message := "request entity too large";
     err_statusCode := Some 413%Z;
     err_stack := Some "PayloadTooLargeError: request entity too large" |}.

(** ** Built-ins used by the rest of the backend *)

(** [s.includes(sub)] on strings. *)
Fixpoint str_includes (s sub : string) : bool :=
  match app.strip_prefix sub s with
  | Some _ => true
  | None =>
      match s with
      | EmptyString => false
      | String _ s' => str_includes s' sub
      end
  end.

(** [l.includes(x)] on an array of strings. *)
Definition arr_includes (l : list string) (x : string) : bool :=
  existsb (String.eqb x) l.

(** [a || b] for an optional string [a] and a string [b]. *)
Definition ostr_or (a : option string) (b : string) : string :=
  match a with
  | Some a => if str_not a then b else a
  | None => b
  end.

(** ** middleware/cors.ts *)

(** How a middleware leaves the request: it ended the response with a
    status, or it called [next()]. *)
Inductive middleware_end : Type :=
  | Ended (code : Z)
  | CalledNext.

(** A request header as Node types it: a string, or [undefined]. *)
Definition header_of (h : jsobj) (k : string) : option string :=
  match h !! k with
  | Some (JStr v) => Some v
  | _ => None
  end.

(** [corsMiddleware(req, res, next)]; [res_headers] are the headers set on
    the response so far, and the result holds them after the calls of
    [res.header]. *)
Definition corsMiddleware (env : process_env) (req : request)
    (res_headers : gmap string string) : gmap string string * middleware_end :=
  let environment := ostr_or (ENVIRONMENT env) "dev" in
  let origin := header_of (headers req) "origin" in
  let allowedOrigins :=
    if String.eqb environment "prod" then ["https://www.learnermax.com"]
    else ["http://localhost:3000"; "https://www.learnermax.com"] in
  let corsOrigin :=
    match origin with
    | Some origin =>
        if str_not origin then ""
        else if arr_includes allowedOrigins origin
                || (String.eqb environment "dev"
                    && str_includes origin ".vercel.app")
             then origin
             else ""
    | None => ""
    end in
  let res_headers :=
    <["Access-Control-Allow-Credentials" := "true"]>
      (<["Access-Control-Allow-Methods" := "OPTIONS,POST,GET,PUT,DELETE"]>
         (<["Access-Control-Allow-Headers" :=
              "Content-Type,X-Amz-Date,Authorization,X-Api-Key,X-Amz-Security-Token"]>
            (<["Access-Control-Allow-Origin" := corsOrigin]> res_headers))) in
  if String.eqb (method req) "OPTIONS" then (res_headers, Ended 200)
  else (res_headers, CalledNext).

(** ** app.ts: the routes of the application itself, and the CORS layer *)

(** [app.get('/health', ...)] *)
Definition app_health (env : process_env) (req : request) : M response :=
  timestamp ← Date_now_toISOString;
  mret (res_json
          (JObj {[ "status" := JStr "ok";
                   "timestamp" := JStr timestamp;
                   "environment" := JStr (ostr_or (ENVIRONMENT env) "dev") ]})).

(** [app.get('/', ...)] *)
Definition app_root (req : request) : M response :=
  mret (res_json
          (JObj {[ "message" := JStr "LearnerMax API";
                   "version" := JStr "1.0.0";
                   "documentation" := JStr "/openapi.yaml" ]})).

(** What leaves the application: the headers set on the response, its
    status, and the JSON body if one was sent. *)
Record reply : Type := Reply {
  reply_headers : gmap string string;
  reply_status : Z;
  reply_body : option jsval
}.

(** [app.use(corsMiddleware)] in front of the routes: [routes] stands for
    the layers registered after it, which run only if the middleware calls
    [next()]. *)
Definition app_use_cors (env : process_env) (routes : request → M response)
    (req : request) : M reply :=
  match corsMiddleware env req ∅ with
  | (h, Ended code) =>
      mret {| reply_headers := h; reply_status := code; reply_body := None |}
  | (h, CalledNext) =>
      r ← routes req;
      mret {| reply_headers := h; reply_status := status r;
              reply_body := Some (json r) |}
  end.

(** ** The Lambda handler [getAllItemsHandler] *)

(** The fields of the API Gateway event that the handler reads. *)
Record lambda_event : Type := LambdaEvent {
  httpMethod : string;
  event_path : string;
  event_headers : option (gmap string string)
}.

Record lambda_response : Type := LambdaResponse {
  statusCode : Z;
  response_headers : gmap string string;
  response_body : option string
}.

Definition event_value (event : lambda_event) : jsval :=
  JObj {[ "httpMethod" := JStr (httpMethod event);
          "path" := JStr (event_path event);
          "headers" := match event_headers event with
                       | Some h => JObj (JStr <$> h)
                       | None => JUndefined
                       end ]}.

Section Lambda.

(** [JSON.stringify] on the array of items. *)
Variable JSON_stringify : list jsobj → string.

Definition getAllItemsHandler (env : process_env) (net : option jserror)
    (event : lambda_event) : M lambda_response :=
  if negb (String.eqb (httpMethod event) "GET") then
    throw (new_Error ("getAllItems only accept GET method, you tried: "
                      +:+ httpMethod event))
  else
    console_info [LStr "received:"; LVal (event_value event)];;
    items ← try_catch
               (data ← send net (ScanCommand (default "" (SAMPLE_TABLE env)));
                mret (Items data))
               (λ err, console_log [LStr "Error"; LErr err];; mret None);
    let environment := ostr_or (ENVIRONMENT env) "dev" in
    let origin :=
      match event_headers event with
      | Some h =>
          match h !! "origin" with
          | Some o => if str_not o then h !! "Origin" else Some o
          | None => h !! "Origin"
          end
      | None => None
      end in
    let allowedOrigins :=
      if String.eqb environment "prod" then ["https://www.learnermax.com"]
      else ["http://localhost:3000"; "https://www.learnermax.com"] in
    let corsOrigin :=
      match origin with
      | Some origin =>
          if str_not origin then ""
          else if arr_includes allowedOrigins origin
                  || (String.eqb environment "dev"
                      && str_includes origin ".vercel.app")
               then origin
               else ""
      | None => ""
      end in
    let response :=
      {| statusCode := 200;
         response_headers :=
           {[ "Access-Control-Allow-Headers" :=
                "Content-Type,X-Amz-Date,Authorization,X-Api-Key,X-Amz-Security-Token";
              "Access-Control-Allow-Origin" := corsOrigin;
              "Access-Control-Allow-Methods" := "OPTIONS,POST,GET,PUT,DELETE" ]};
         response_body := JSON_stringify <$> items |} in
    console_info
      [LStr ("response from: " +:+ event_path event
             +:+ " statusCode: " +:+ pretty (statusCode response)
             +:+ " body: " +:+ default "undefined" (response_body response))];;
    mret response.

End Lambda.

(** ** The test data generator of the end-to-end suite *)

Record TestDataOptions : Type := Options {
  opt_prefix : option string;
  opt_timestamp : option bool;
  opt_unique : option bool
}.

(** [Omit<TestItem, 'createdAt' | 'updatedAt'>] *)
Record TestItem : Type := Item_ {
  item_id : string;
  item_name : string
}.

(** [++n] on the static counter, a JavaScript number that starts at 0 and
    only ever grows by [++]: below 2^53 the sum is exact; at 2^53 it is not
    representable and rounds back to 2^53, so the counter stays there. *)
Definition js_incr (n : N) : N := if (n <? 2 ^ 53)%N then (n + 1)%N else n.

(** [TestDataGenerator.generateItem(options)]; [now] is the reading of
    [Date.now()], [instanceCounter] the static counter, returned with the
    item as the call leaves it. *)
Definition generateItem (options : TestDataOptions) (now : N)
    (instanceCounter : N) : TestItem * N :=
  let prefix := default "test-item" (opt_prefix options) in
  let timestamp := default true (opt_timestamp options) in
  let unique := default true (opt_unique options) in
  let id := prefix in
  let id := if timestamp then id +:+ "-" +:+ pretty now else id in
  let instanceCounter :=
    if unique then js_incr instanceCounter else instanceCounter in
  let id := if unique then id +:+ "-" +:+ pretty instanceCounter else id in
  ({| item_id := id; item_name := "Test Learning Item - " +:+ id |},
   instanceCounter).

(** [TestDataGenerator.generateItems(count, options)], from element [index]
    on; [now k] is the reading of [Date.now()] while element [k] is made. *)
Fixpoint generateItems_from (options : TestDataOptions) (now : nat → N)
    (index count : nat) (instanceCounter : N) : list TestItem * N :=
  match count with
  | 0 => ([], instanceCounter)
  | S count' =>
      let itemOptions :=
        {| opt_prefix := Some (ostr_or (opt_prefix options) "test-item"
                               +:+ "-" +:+ pretty (index + 1));
           opt_timestamp := opt_timestamp options;
           opt_unique := opt_unique options |} in
      let (item, instanceCounter) :=
        generateItem itemOptions (now index) instanceCounter in
      let (items, instanceCounter) :=
        generateItems_from options now (S index) count' instanceCounter in
      (item :: items, instanceCounter)
  end.

Definition generateItems (count : nat) (options : TestDataOptions)
    (now : nat → N) (instanceCounter : N) : list TestItem * N :=
  generateItems_from options now 0 count instanceCounter.

(** The request body the suite posts for a generated item. *)
Definition body_of (item : TestItem) : jsobj :=
  {[ "id" := JStr (item_id item); "name" := JStr (item_name item) ]}.

(** No character of the string is a dash. *)
Fixpoint dashless (s : string) : Prop :=
  match s with
  | EmptyString => True
  | String c s' => c ≠ "-"%char ∧ dashless s'
  end.

(** * Properties *)

(** ** Basic facts *)

Lemma str_not_false (s : string) : str_not s = false ↔ s ≠ "".
Proof.
  unfold str_not. destruct (String.eqb_spec s ""); split; congruence.
Qed.

Lemma str_not_true (s : string) : str_not s = true ↔ s = "".
Proof.
  unfold str_not. destruct (String.eqb_spec s ""); split; congruence.
Qed.

Lemma configured_tableName env tn :
  configured env tn →
  ostr_not (DynamoDBService.tableName env) = false
  ∧ default "" (DynamoDBService.tableName env) = tn.
Proof.
  intros [Ht Hne]. unfold DynamoDBService.tableName. rewrite Ht. simpl.
  split; [by apply str_not_false | done].
Qed.

Lemma js_not_str (s : string) : js_not (JStr s) = str_not s.
Proof. unfold js_not, truthy, str_not. by rewrite negb_involutive. Qed.

Lemma key_of_str (o : jsobj) (i : string) :
  o !! "id" = Some (JStr i) → i ≠ "" → key_of o = Some i.
Proof.
  intros Ho Hi. unfold key_of. rewrite Ho.
  apply str_not_false in Hi. by rewrite Hi.
Qed.

Lemma key_of_Some (o : jsobj) (i : string) :
  key_of o = Some i → o !! "id" = Some (JStr i) ∧ i ≠ "".
Proof.
  unfold key_of. destruct (o !! "id") as [[]|] eqn:E; try discriminate.
  destruct (str_not s) eqn:Es; [discriminate|].
  intros [= ->]. split; [done | by apply str_not_false].
Qed.

Lemma stamped_id (item : jsobj) ts : stamped item ts !! "id" = item !! "id".
Proof. unfold stamped. by rewrite !lookup_insert_ne. Qed.

Lemma stamped_name (item : jsobj) ts : stamped item ts !! "name" = item !! "name".
Proof. unfold stamped. by rewrite !lookup_insert_ne. Qed.

Lemma stamped_createdAt (item : jsobj) ts :
  stamped item ts !! "createdAt" = Some (JStr ts).
Proof. unfold stamped. rewrite lookup_insert_ne; [|done]. apply lookup_insert_eq. Qed.

Lemma stamped_updatedAt (item : jsobj) ts :
  stamped item ts !! "updatedAt" = Some (JStr ts).
Proof. unfold stamped. apply lookup_insert_eq. Qed.

Lemma key_of_stamped (item : jsobj) ts : key_of (stamped item ts) = key_of item.
Proof. unfold key_of. by rewrite stamped_id. Qed.

(** ** The service, operation by operation *)

Section ServiceFacts.

Context (env : process_env) (tn : string) (Hcfg : configured env tn).

(** What [getAllItems] does, for each outcome of the store call. *)
Lemma getAllItems_run net w :
  DynamoDBService.getAllItems env net w =
  match net with
  | None => (Normal (one_page w), w_sent (ScanCommand tn) (table w) w)
  | Some e =>
      (Throws (new_Error "Failed to retrieve items from database"),
       w_log (error_line "Error getting all items:" e)
         (w_sent (ScanCommand tn) (table w) w))
  end.
Proof.
  destruct (configured_tableName _ _ Hcfg) as [Hn Ht].
  unfold DynamoDBService.getAllItems. rewrite Hn, Ht.
  destruct net; [done|].
  unfold try_catch, mbind, M_bind, send, ddb_exec. cbn [TableName].
  by rewrite (proj2 (str_not_false tn) (proj2 Hcfg)).
Qed.

Lemma getItemById_run net id w :
  id ≠ "" →
  DynamoDBService.getItemById env net id w =
  let c := GetCommand tn {[ "id" := JStr id ]} in
  match net with
  | None => (Normal (table w !! id), w_sent c (table w) w)
  | Some e =>
      (Throws (new_Error "Failed to retrieve item from database"),
       w_log (error_line "Error getting item by id:" e) (w_sent c (table w) w))
  end.
Proof.
  intros Hid. destruct (configured_tableName _ _ Hcfg) as [Hn Ht].
  unfold DynamoDBService.getItemById. rewrite Hn, Ht.
  apply str_not_false in Hid as Hid'. rewrite Hid'.
  destruct net; [done|].
  unfold try_catch, mbind, M_bind, send, ddb_exec. cbn [TableName].
  rewrite (proj2 (str_not_false tn) (proj2 Hcfg)).
  rewrite (key_of_str _ id); [done | apply lookup_singleton_eq | done].
Qed.


Lemma putItem_invalid net item w :
  js_not (prop item "id") || js_not (prop item "name") = true →
  DynamoDBService.putItem env net item w =
  (Throws (new_Error "Both id and name are required"), w).
Proof.
  intros Hbad. destruct (configured_tableName _ _ Hcfg) as [Hn Ht].
  unfold DynamoDBService.putItem. by rewrite Hn, Hbad.
Qed.

Lemma putItem_run net item w :
  js_not (prop item "id") || js_not (prop item "name") = false →
  DynamoDBService.putItem env net item w =
  let r := stamped item (clock w (ticks w)) in
  let c := PutCommand tn r in
  let w1 := w_tick w in
  match net, key_of item with
  | None, Some i =>
      (Normal r,
       w_log (LogEntry LevelLog [LStr "Success - item added or updated:"; LVal (JObj r)])
         (w_sent c (<[i := r]> (table w)) w1))
  | None, None =>
      (Throws (new_Error "Failed to save item to database"),
       w_log (error_line "Error putting item:" ValidationException)
         (w_sent c (table w) w1))
  | Some e, _ =>
      (Throws (new_Error "Failed to save item to database"),
       w_log (error_line "Error putting item:" e) (w_sent c (table w) w1))
  end.
Proof.
  intros Hok. destruct (configured_tableName _ _ Hcfg) as [Hn Ht].
  unfold DynamoDBService.putItem. rewrite Hn, Hok, Ht.
  destruct net as [e|]; [by destruct (key_of item)|].
  unfold try_catch, mbind, M_bind, send, ddb_exec, Date_now_toISOString.
  cbn [TableName]. rewrite (proj2 (str_not_false tn) (proj2 Hcfg)).
  fold (stamped item (clock w (ticks w))).
  rewrite key_of_stamped. simpl.
  by destruct (key_of item).
Qed.

End ServiceFacts.

(** ** The router and the error handler *)

(** The guard of the POST handler: a falsy [id] or [name] is answered 400
    after the entry line is logged, and nothing else happens. *)
Lemma post_root_rejects env net req w :
  js_not (prop (body req) "id") || js_not (prop (body req) "name") = true →
  itemsRouter.post_root env net req w =
  (Normal (response_of 400
     (envelope (envelope_fields "Both id and name are required in the request body"
                  400 (clock w (ticks w)) (path req)))),
   w_tick (w_log
     (LogEntry LevelInfo
        [LStr "Create/update item request received:";
         LVal (JObj {[ "body" := JObj (body req);
                       "method" := JStr (method req);
                       "path" := JStr (path req) ]})]) w)).
Proof.
  intros Hbad. unfold itemsRouter.post_root.
  unfold mbind, M_bind, console_info, console_write. rewrite Hbad. done.
Qed.

Lemma items_route_normal env h req w resp w' :
  h (app.router_request req) w = (Normal resp, w') →
  app.items_route env h req w = (Normal resp, w').
Proof. intros H. unfold app.items_route, try_catch. by rewrite H. Qed.

Lemma items_route_throws env h req w e w' :
  h (app.router_request req) w = (Throws e, w') →
  app.items_route env h req w = errorHandler env e req w'.
Proof. intros H. unfold app.items_route, try_catch. by rewrite H. Qed.

Lemma falsy_field (o : jsobj) (k : string) :
  o !! k = None ∨ o !! k = Some (JStr "") → js_not (prop o k) = true.
Proof. unfold prop. by intros [-> | ->]. Qed.

Lemma includes_required :
  includes "Both id and name are required in the request body" "required".
Proof. by exists "Both id and name are ", " in the request body". Qed.

(** C2. A POST whose body has an empty or absent [id], or an empty or absent
    [name], is answered 400 with the error envelope, [statusCode] 400 and a
    message that contains "required"; no command is handed to the document
    client whatever the state of the service, the table is unchanged, and a
    later [getItemById] of an id that was not in the table still finds
    nothing. *)
Theorem post_invalid_is_400_and_writes_nothing env net req w :
  (body req !! "id" = None ∨ body req !! "id" = Some (JStr ""))
  ∨ (body req !! "name" = None ∨ body req !! "name" = Some (JStr "")) →
  ∃ resp w',
    app.POST_items env net req w = (Normal resp, w')
    ∧ status resp = 400%Z
    ∧ (∃ message timestamp p,
         json resp = envelope (envelope_fields message 400 timestamp p)
         ∧ includes message "required")
    ∧ sent w' = sent w
    ∧ table w' = table w
    ∧ (∀ net', app.POST_items env net' req w = (Normal resp, w'))
    ∧ (∀ tn i, configured env tn → i ≠ "" → table w !! i = None →
         ∃ w'', DynamoDBService.getItemById env None i w' = (Normal None, w'')).
Proof.
  intros Hbad.
  assert (Hjs : js_not (prop (body (app.router_request req)) "id")
                || js_not (prop (body (app.router_request req)) "name") = true).
  { simpl. destruct Hbad as [H | H]; rewrite (falsy_field _ _ H); [done|].
    apply orb_true_r. }
  eexists _, _. split.
  { apply items_route_normal, post_root_rejects, Hjs. }
  split; [done|]. split.
  { eexists _, _, _. split; [reflexivity | apply includes_required]. }
  split; [done|]. split; [done|]. split.
  { intros net'. apply items_route_normal, (post_root_rejects _ net' _ _ Hjs). }
  intros tn i Hcfg Hi Hnone. eexists.
  rewrite (getItemById_run env tn Hcfg None i _ Hi). simpl.
  by rewrite Hnone.
Qed.

Lemma post_invalid_is_400_and_writes_nothing_witness :
  ∃ resp w',
    app.POST_items sample_env None
      (sample_request "POST" "/api/items" ∅ {[ "name" := JStr "no id" ]})
      fresh_world = (Normal resp, w')
    ∧ status resp = 400%Z
    ∧ (∃ message timestamp p,
         json resp = envelope (envelope_fields message 400 timestamp p)
         ∧ includes message "required")
    ∧ sent w' = sent fresh_world
    ∧ table w' = table fresh_world
    ∧ (∀ net', app.POST_items sample_env net'
         (sample_request "POST" "/api/items" ∅ {[ "name" := JStr "no id" ]})
         fresh_world = (Normal resp, w'))
    ∧ (∀ tn i, configured sample_env tn → i ≠ "" → table fresh_world !! i = None →
         ∃ w'', DynamoDBService.getItemById sample_env None i w' = (Normal None, w'')).
Proof.
  apply (post_invalid_is_400_and_writes_nothing sample_env None
           (sample_request "POST" "/api/items" ∅ {[ "name" := JStr "no id" ]})
           fresh_world).
  left. left. reflexivity.
Defined.

(** ** Successful writes *)

(** A call of [putItem] that returns has passed both guards, reached the
    table, and returns the record it stored. *)
Lemma putItem_Normal_inv env net item w r w1 :
  DynamoDBService.putItem env net item w = (Normal r, w1) →
  ∃ tn i,
    configured env tn
    ∧ net = None
    ∧ key_of item = Some i
    ∧ js_not (prop item "name") = false
    ∧ r = stamped item (clock w (ticks w))
    ∧ w1 = w_log (LogEntry LevelLog
                    [LStr "Success - item added or updated:"; LVal (JObj r)])
             (w_sent (PutCommand tn r) (<[i := r]> (table w)) (w_tick w)).
Proof.
  intros Hput.
  destruct (SAMPLE_TABLE env) as [tn|] eqn:Etn; cycle 1.
  { unfold DynamoDBService.putItem, DynamoDBService.tableName in Hput.
    rewrite Etn in Hput. discriminate. }
  destruct (str_not tn) eqn:Ene.
  { unfold DynamoDBService.putItem, DynamoDBService.tableName in Hput.
    rewrite Etn in Hput. simpl in Hput. rewrite Ene in Hput. discriminate. }
  assert (Hcfg : configured env tn) by (split; [done | by apply str_not_false]).
  destruct (js_not (prop item "id") || js_not (prop item "name")) eqn:Ev.
  { rewrite (putItem_invalid env tn Hcfg _ _ _ Ev) in Hput. discriminate. }
  rewrite (putItem_run env tn Hcfg _ _ _ Ev) in Hput. simpl in Hput.
  apply orb_false_elim in Ev as [_ Hname].
  destruct net as [e|]; [discriminate|].
  destruct (key_of item) as [i|] eqn:Ek; [|discriminate].
  injection Hput as <- <-. by exists tn, i.
Qed.

(** C1. After a successful [putItem] of an item whose [id] and [name] are
    non-empty strings, [getItemById] with that id returns an item with the
    same [id] and [name]. *)
Theorem putItem_then_getItemById env net item i n w r w1 :
  item !! "id" = Some (JStr i) → i ≠ "" →
  item !! "name" = Some (JStr n) → n ≠ "" →
  DynamoDBService.putItem env net item w = (Normal r, w1) →
  ∃ r' w2,
    DynamoDBService.getItemById env None i w1 = (Normal (Some r'), w2)
    ∧ r' !! "id" = Some (JStr i)
    ∧ r' !! "name" = Some (JStr n).
Proof.
  intros Hid Hi Hname Hn Hput.
  apply putItem_Normal_inv in Hput
    as (tn & i' & Hcfg & _ & Hk & _ & -> & ->).
  rewrite (key_of_str _ _ Hid Hi) in Hk. injection Hk as <-.
  eexists _, _. split.
  - rewrite (getItemById_run env tn Hcfg None i _ Hi). simpl.
    rewrite lookup_insert_eq. reflexivity.
  - by rewrite stamped_id, stamped_name.
Qed.

Lemma putItem_then_getItemById_witness :
  ∃ r w1,
    DynamoDBService.putItem sample_env None
      {[ "id" := JStr "id1"; "name" := JStr "name1" ]} fresh_world = (Normal r, w1)
    ∧ ∃ r' w2,
        DynamoDBService.getItemById sample_env None "id1" w1 = (Normal (Some r'), w2)
        ∧ r' !! "id" = Some (JStr "id1")
        ∧ r' !! "name" = Some (JStr "name1").
Proof.
  eexists _, _. split; [reflexivity|].
  eapply (putItem_then_getItemById sample_env None
            {[ "id" := JStr "id1"; "name" := JStr "name1" ]} "id1" "name1"
            fresh_world); [reflexivity | discriminate | reflexivity | discriminate
                         | reflexivity].
Defined.

(** C6. The record a successful [putItem] returns is the record it wrote,
    and its [createdAt] and [updatedAt] are both the clock reading taken by
    that call; so they are equal. *)
Theorem putItem_stamps_both_timestamps env net item w r w1 :
  DynamoDBService.putItem env net item w = (Normal r, w1) →
  r !! "createdAt" = Some (JStr (clock w (ticks w)))
  ∧ r !! "updatedAt" = Some (JStr (clock w (ticks w)))
  ∧ prop r "createdAt" = prop r "updatedAt"
  ∧ ∃ tn i,
      item !! "id" = Some (JStr i)
      ∧ table w1 !! i = Some r
      ∧ last (sent w1) = Some (PutCommand tn r).
Proof.
  intros Hput.
  apply putItem_Normal_inv in Hput
    as (tn & i & Hcfg & _ & Hk & _ & -> & ->).
  split; [apply stamped_createdAt|]. split; [apply stamped_updatedAt|]. split.
  { unfold prop. by rewrite stamped_createdAt, stamped_updatedAt. }
  exists tn, i. apply key_of_Some in Hk as [Hid _].
  split; [done|]. split.
  - simpl. apply lookup_insert_eq.
  - simpl. apply last_snoc.
Qed.

Lemma putItem_stamps_both_timestamps_witness :
  ∃ r w1,
    DynamoDBService.putItem sample_env None
      {[ "id" := JStr "id1"; "name" := JStr "name1" ]} fresh_world = (Normal r, w1)
    ∧ r !! "createdAt" = Some (JStr "2025-01-01T00:00:00.000Z")
    ∧ r !! "updatedAt" = Some (JStr "2025-01-01T00:00:00.000Z")
    ∧ prop r "createdAt" = prop r "updatedAt"
    ∧ ∃ tn i,
        ({[ "id" := JStr "id1"; "name" := JStr "name1" ]} : jsobj) !! "id"
          = Some (JStr i)
        ∧ table w1 !! i = Some r
        ∧ last (sent w1) = Some (PutCommand tn r).
Proof.
  eexists _, _. split; [reflexivity|].
  eapply (putItem_stamps_both_timestamps sample_env None
            {[ "id" := JStr "id1"; "name" := JStr "name1" ]} fresh_world).
  reflexivity.
Defined.

(** C3. Evaluation of two writes under one id: the stored [createdAt] is the
    clock reading of the first write after the first, and the clock reading
    of the second write after the second. *)
Theorem second_putItem_replaces_createdAt :
  ∃ r1 w1 r2 w2,
    DynamoDBService.putItem sample_env None
      {[ "id" := JStr "id1"; "name" := JStr "name1" ]} fresh_world = (Normal r1, w1)
    ∧ DynamoDBService.putItem sample_env None
        {[ "id" := JStr "id1"; "name" := JStr "name2" ]} w1 = (Normal r2, w2)
    ∧ table w1 !! "id1" ≫= (.!! "createdAt")
        = Some (JStr "2025-01-01T00:00:00.000Z")
    ∧ table w2 !! "id1" ≫= (.!! "createdAt")
        = Some (JStr "2025-01-01T00:00:01.000Z").
Proof.
  eexists _, _, _, _. split; [reflexivity|]. split; [reflexivity|].
  split; reflexivity.
Qed.

(** ** Reads create nothing *)

Lemma getAllItems_table env net w :
  table (DynamoDBService.getAllItems env net w).2 = table w.
Proof.
  unfold DynamoDBService.getAllItems.
  destruct (ostr_not _); [done|]. destruct net; [done|].
  unfold try_catch, mbind, M_bind, send, ddb_exec. cbn [TableName].
  by destruct (str_not _).
Qed.

Lemma getItemById_table env net id w :
  table (DynamoDBService.getItemById env net id w).2 = table w.
Proof.
  unfold DynamoDBService.getItemById.
  destruct (ostr_not _); [done|]. destruct (str_not id); [done|].
  destruct net; [done|].
  unfold try_catch, mbind, M_bind, send, ddb_exec. cbn [TableName].
  destruct (str_not _); [done|]. by destruct (key_of _).
Qed.

Lemma putItem_table env net item w :
  table (DynamoDBService.putItem env net item w).2 = table w
  ∨ ∃ i r, item !! "id" = Some (JStr i)
           ∧ (DynamoDBService.putItem env net item w).1 = Normal r
           ∧ table (DynamoDBService.putItem env net item w).2 = <[i := r]> (table w).
Proof.
  unfold DynamoDBService.putItem.
  destruct (ostr_not _); [by left|].
  destruct (_ || _); [by left|].
  destruct net; [by left|].
  unfold try_catch, mbind, M_bind, send, ddb_exec, Date_now_toISOString.
  cbn [TableName]. destruct (str_not _); [by left|].
  fold (stamped item (clock w (ticks w))). rewrite key_of_stamped. simpl.
  destruct (key_of item) as [i|] eqn:Ek; [|by left].
  right. apply key_of_Some in Ek as [Hid _]. by eexists _, _.
Qed.

Lemma exec_call_other env c i w :
  ¬ writes env i c w → table (exec_call env c w) !! i = table w !! i.
Proof.
  intros Hw. destruct c as [net | net id | net item]; simpl.
  - by rewrite getAllItems_table.
  - by rewrite getItemById_table.
  - destruct (putItem_table env net item w) as [-> | (i' & r & Hid & Hr & ->)];
      [done|].
    rewrite lookup_insert_ne; [done|]. intros ->. apply Hw. simpl. eauto.
Qed.

(** An id that no call of the history wrote is in the table after the
    history exactly if it was before. *)
Lemma exec_calls_other env cs i w :
  never_written env i cs w →
  table (exec_calls env cs w) !! i = table w !! i.
Proof.
  revert w. induction cs as [|c cs IH]; intros w Hcs; [done|].
  destruct Hcs as [Hc Hcs]. simpl.
  fold (exec_calls env cs (exec_call env c w)).
  rewrite IH by done. by apply exec_call_other.
Qed.

(** ** Reading an id that is not in the table *)

Lemma get_id_absent env tn req i w :
  configured env tn → params req !! "id" = Some i → i ≠ "" →
  table w !! i = None →
  ∃ w', itemsRouter.get_id env None req w =
    (Normal (response_of 404
       (envelope (envelope_fields ("Item with id '" +:+ i +:+ "' not found")
                    404 (clock w (ticks w)) (path req)))), w')
    ∧ table w' = table w.
Proof.
  intros Hcfg Hp Hi Hnone. unfold itemsRouter.get_id, req_param.
  rewrite Hp. simpl default.
  unfold mbind, M_bind, console_info, console_write.
  rewrite (getItemById_run env tn Hcfg None i _ Hi). simpl.
  rewrite Hnone. by eexists.
Qed.

Lemma get_id_present env tn req i r w :
  configured env tn → params req !! "id" = Some i → i ≠ "" →
  table w !! i = Some r →
  ∃ w', itemsRouter.get_id env None req w = (Normal (res_json (JObj r)), w')
    ∧ table w' = table w.
Proof.
  intros Hcfg Hp Hi Hsome. unfold itemsRouter.get_id, req_param.
  rewrite Hp. simpl default.
  unfold mbind, M_bind, console_info, console_write.
  rewrite (getItemById_run env tn Hcfg None i _ Hi). simpl.
  rewrite Hsome. by eexists.
Qed.

(** C4. For an id that no call has written, [getItemById] returns the
    not-found value [null] and does not throw, and GET /api/items/{id}
    answers 404 with the error envelope, [statusCode] 404 and a message that
    contains the id.  (Ids are non-empty strings, the table name is set and
    the store call itself succeeds.) *)
Theorem getItemById_never_written env tn cs w0 i req :
  configured env tn → i ≠ "" →
  table w0 !! i = None → never_written env i cs w0 →
  (∃ w1, DynamoDBService.getItemById env None i (exec_calls env cs w0)
         = (Normal None, w1))
  ∧ (params req !! "id" = Some i →
     ∃ resp w2 message timestamp p,
       app.GET_item env None req (exec_calls env cs w0) = (Normal resp, w2)
       ∧ status resp = 404%Z
       ∧ json resp = envelope (envelope_fields message 404 timestamp p)
       ∧ includes message i).
Proof.
  intros Hcfg Hi Hfresh Hcs.
  assert (Hnone : table (exec_calls env cs w0) !! i = None).
  { by rewrite exec_calls_other. }
  split.
  - eexists. rewrite (getItemById_run env tn Hcfg None i _ Hi). simpl.
    by rewrite Hnone.
  - intros Hp.
    destruct (get_id_absent env tn (app.router_request req) i _ Hcfg Hp Hi Hnone)
      as (w2 & Hget & _).
    eexists _, w2, _, _, _. split.
    { apply items_route_normal, Hget. }
    split; [done|]. split; [reflexivity|].
    by exists "Item with id '", "' not found".
Qed.

Lemma getItemById_never_written_witness :
  (∃ w1, DynamoDBService.getItemById sample_env None "ghost"
           (exec_calls sample_env
              [Upsert None {[ "id" := JStr "id1"; "name" := JStr "name1" ]};
               GetById None "ghost"; ListAll None] fresh_world)
         = (Normal None, w1))
  ∧ (params (sample_request "GET" "/api/items/ghost" {[ "id" := "ghost" ]} ∅)
       !! "id" = Some "ghost" →
     ∃ resp w2 message timestamp p,
       app.GET_item sample_env None
         (sample_request "GET" "/api/items/ghost" {[ "id" := "ghost" ]} ∅)
         (exec_calls sample_env
            [Upsert None {[ "id" := JStr "id1"; "name" := JStr "name1" ]};
             GetById None "ghost"; ListAll None] fresh_world)
       = (Normal resp, w2)
       ∧ status resp = 404%Z
       ∧ json resp = envelope (envelope_fields message 404 timestamp p)
       ∧ includes message "ghost").
Proof.
  apply (getItemById_never_written sample_env "items-table"
           [Upsert None {[ "id" := JStr "id1"; "name" := JStr "name1" ]};
            GetById None "ghost"; ListAll None] fresh_world "ghost").
  - split; [reflexivity | discriminate].
  - discriminate.
  - reflexivity.
  - simpl. repeat split; try tauto. intros [Hid _]. discriminate Hid.
Defined.

(** ** The error handler on the errors the service constructs *)

Lemma envelope_fields_message m c t p :
  envelope_fields m c t p !! "message" = Some (JStr m).
Proof. unfold envelope_fields. by simplify_map_eq. Qed.

Lemma envelope_fields_statusCode m c t p :
  envelope_fields m c t p !! "statusCode" = Some (JNum c).
Proof. unfold envelope_fields. by simplify_map_eq. Qed.

Lemma envelope_fields_timestamp m c t p :
  envelope_fields m c t p !! "timestamp" = Some (JStr t).
Proof. unfold envelope_fields. by simplify_map_eq. Qed.

Lemma envelope_fields_path m c t p :
  envelope_fields m c t p !! "path" = Some (JStr p).
Proof. unfold envelope_fields. by simplify_map_eq. Qed.

Lemma envelope_fields_stack m c t p : envelope_fields m c t p !! "stack" = None.
Proof. unfold envelope_fields. by simplify_map_eq. Qed.

Lemma envelope_fields_dom m c t p :
  dom (envelope_fields m c t p)
  = ({[ "message"; "statusCode"; "timestamp"; "path" ]} : gset string).
Proof. unfold envelope_fields. rewrite !dom_insert_L, dom_singleton_L. set_solver. Qed.

Lemma errorHandler_new_Error env msg req w :
  msg ≠ "" →
  errorHandler env (new_Error msg) req w =
  (Normal (response_of 500
     (envelope
        ((if negb (bool_decide (ENVIRONMENT env = Some "prod"))
          then <["stack" := JStr ("Error: " +:+ msg)]>
          else id)
           (envelope_fields msg 500 (clock w (ticks w)) (path req))))),
   w_tick (w_log
     (LogEntry LevelError
        [LStr "Error occurred:";
         LVal (JObj {[ "message" := JStr msg;
                       "stack" := JStr ("Error: " +:+ msg);
                       "path" := JStr (path req);
                       "method" := JStr (method req);
                       "statusCode" := JUndefined ]})]) w)).
Proof.
  intros Hmsg. apply str_not_false in Hmsg.
  unfold errorHandler, new_Error.
  cbn [err_name err_message err_statusCode err_stack of_ostr of_onum].
  rewrite Hmsg.
  change (String.eqb "Error" "ValidationError") with false.
  change (String.eqb "Error" "CastError") with false.
  change (String.eqb "Error" "JsonWebTokenError") with false.
  cbv iota. reflexivity.
Qed.

Lemma errorHandler_new_Error_500 env msg req w :
  msg ≠ "" →
  ∃ resp w',
    errorHandler env (new_Error msg) req w = (Normal resp, w')
    ∧ answers_500 resp msg
    ∧ table w' = table w ∧ sent w' = sent w.
Proof.
  intros Hmsg. eexists _, _. split; [by apply errorHandler_new_Error|].
  split; [|done]. split; [done|]. eexists. split; [reflexivity|].
  destruct (negb _); simpl.
  - rewrite !lookup_insert_ne by done.
    by rewrite envelope_fields_message, envelope_fields_statusCode.
  - by rewrite envelope_fields_message, envelope_fields_statusCode.
Qed.

(** ** Failures of the store call *)

Section StoreFailures.

Context (env : process_env) (tn : string) (Hcfg : configured env tn).

(** What the table makes of a command that names it. *)
Lemma ddb_exec_named page c t :
  TableName c = tn →
  ddb_exec page c t =
  match c with
  | ScanCommand _ =>
      (Normal {| Items := Some (take (page (scan_order t)) (scan_order t));
                 Item := None |}, t)
  | GetCommand _ key =>
      match key_of key with
      | Some i => (Normal {| Items := None; Item := t !! i |}, t)
      | None => (Throws ValidationException, t)
      end
  | PutCommand _ item =>
      match key_of item with
      | Some i => (Normal {| Items := None; Item := None |}, <[i := item]> t)
      | None => (Throws ValidationException, t)
      end
  end.
Proof.
  intros Hc. unfold ddb_exec.
  by rewrite Hc, (proj2 (str_not_false tn) (proj2 Hcfg)).
Qed.

Lemma getAllItems_raises net e w :
  raises net (ScanCommand tn) (table w) e →
  DynamoDBService.getAllItems env net w =
  (Throws (new_Error "Failed to retrieve items from database"),
   w_log (error_line "Error getting all items:" e)
     (w_sent (ScanCommand tn) (table w) w)).
Proof.
  intros Hr. rewrite (getAllItems_run env tn Hcfg).
  destruct net as [e'|]; simpl in Hr; [by subst|].
  specialize (Hr (page_items w)). rewrite ddb_exec_named in Hr by done.
  discriminate.
Qed.

Lemma getItemById_raises net e id w :
  id ≠ "" →
  raises net (GetCommand tn {[ "id" := JStr id ]}) (table w) e →
  DynamoDBService.getItemById env net id w =
  (Throws (new_Error "Failed to retrieve item from database"),
   w_log (error_line "Error getting item by id:" e)
     (w_sent (GetCommand tn {[ "id" := JStr id ]}) (table w) w)).
Proof.
  intros Hid Hr. rewrite (getItemById_run env tn Hcfg) by done.
  destruct net as [e'|]; simpl in Hr; [by subst|].
  specialize (Hr (page_items w)). rewrite ddb_exec_named in Hr by done.
  rewrite (key_of_str _ id) in Hr; [discriminate | apply lookup_singleton_eq | done].
Qed.

Lemma putItem_raises net e item w :
  js_not (prop item "id") || js_not (prop item "name") = false →
  raises net (PutCommand tn (stamped item (clock w (ticks w)))) (table w) e →
  DynamoDBService.putItem env net item w =
  (Throws (new_Error "Failed to save item to database"),
   w_log (error_line "Error putting item:" e)
     (w_sent (PutCommand tn (stamped item (clock w (ticks w)))) (table w)
        (w_tick w))).
Proof.
  intros Hv Hr. rewrite (putItem_run env tn Hcfg) by done.
  destruct net as [e'|]; simpl in Hr; [by subst|].
  specialize (Hr (page_items w)). rewrite ddb_exec_named in Hr by done.
  rewrite key_of_stamped in Hr. simpl.
  destruct (key_of item); simpl in Hr; [discriminate|].
  by injection Hr as <-.
Qed.

Lemma GET_items_raises net e req w :
  raises net (ScanCommand tn) (table w) e →
  ∃ w', app.GET_items env net req w =
    errorHandler env (new_Error "Failed to retrieve items from database") req w'
    ∧ clock w' = clock w ∧ ticks w' = ticks w.
Proof.
  intros Hr. eexists. split.
  - apply items_route_throws. unfold itemsRouter.get_root.
    unfold mbind, M_bind, console_info, console_write.
    rewrite getAllItems_raises with (e := e) by exact Hr. reflexivity.
  - done.
Qed.

Lemma GET_item_raises net e req id w :
  params req !! "id" = Some id → id ≠ "" →
  raises net (GetCommand tn {[ "id" := JStr id ]}) (table w) e →
  ∃ w', app.GET_item env net req w =
    errorHandler env (new_Error "Failed to retrieve item from database") req w'
    ∧ clock w' = clock w ∧ ticks w' = ticks w.
Proof.
  intros Hp Hid Hr. eexists. split.
  - apply items_route_throws. unfold itemsRouter.get_id, req_param.
    simpl params. rewrite Hp. simpl default.
    unfold mbind, M_bind, console_info, console_write.
    rewrite getItemById_raises with (e := e); [reflexivity | done | exact Hr].
  - done.
Qed.

Lemma POST_items_raises net e req w :
  js_not (prop (body req) "id") || js_not (prop (body req) "name") = false →
  raises net
    (PutCommand tn
       (stamped {[ "id" := prop (body req) "id"; "name" := prop (body req) "name" ]}
          (clock w (ticks w)))) (table w) e →
  ∃ w', app.POST_items env net req w =
    errorHandler env (new_Error "Failed to save item to database") req w'
    ∧ clock w' = clock w ∧ ticks w' = S (ticks w).
Proof.
  intros Hv Hr. eexists. split.
  - apply items_route_throws. unfold itemsRouter.post_root.
    unfold mbind, M_bind, console_info, console_write.
    change (body (app.router_request req)) with (body req). rewrite Hv.
    rewrite putItem_raises with (e := e); [reflexivity | | exact Hr].
    unfold prop at 1 3. by simplify_map_eq.
  - done.
Qed.

End StoreFailures.

Lemma answers_500_generic env msg ts p :
  answers_500
    (response_of 500
       (envelope
          ((if negb (bool_decide (ENVIRONMENT env = Some "prod"))
            then <["stack" := JStr ("Error: " +:+ msg)]>
            else id)
             (envelope_fields msg 500 ts p)))) msg.
Proof.
  split; [done|]. eexists. split; [reflexivity|].
  destruct (negb _); simpl.
  - rewrite !lookup_insert_ne by done.
    by rewrite envelope_fields_message, envelope_fields_statusCode.
  - by rewrite envelope_fields_message, envelope_fields_statusCode.
Qed.

Lemma js_not_both (a b : jsval) :
  truthy a = true → truthy b = true → js_not a || js_not b = false.
Proof. unfold js_not. by intros -> ->. Qed.

(** C5. Whatever error the store call raises, each of the three operations
    writes it to the console and throws one fixed error in its place, and
    the HTTP caller receives a 500 that is the same for every upstream
    error. *)
Theorem store_errors_are_flattened env tn :
  configured env tn →
  (∀ net e w,
     raises net (ScanCommand tn) (table w) e →
     ∃ w', DynamoDBService.getAllItems env net w
           = (Throws (new_Error "Failed to retrieve items from database"), w')
       ∧ last (console w') = Some (error_line "Error getting all items:" e))
  ∧ (∀ net e id w,
       id ≠ "" →
       raises net (GetCommand tn {[ "id" := JStr id ]}) (table w) e →
       ∃ w', DynamoDBService.getItemById env net id w
             = (Throws (new_Error "Failed to retrieve item from database"), w')
         ∧ last (console w') = Some (error_line "Error getting item by id:" e))
  ∧ (∀ net e item w,
       truthy (prop item "id") = true → truthy (prop item "name") = true →
       raises net (PutCommand tn (stamped item (clock w (ticks w)))) (table w) e →
       ∃ w', DynamoDBService.putItem env net item w
             = (Throws (new_Error "Failed to save item to database"), w')
         ∧ last (console w') = Some (error_line "Error putting item:" e))
  ∧ (∀ req w,
       ∃ resp,
         answers_500 resp "Failed to retrieve items from database"
         ∧ ∀ net e,
             raises net (ScanCommand tn) (table w) e →
             ∃ w', app.GET_items env net req w = (Normal resp, w'))
  ∧ (∀ req id w,
       params req !! "id" = Some id → id ≠ "" →
       ∃ resp,
         answers_500 resp "Failed to retrieve item from database"
         ∧ ∀ net e,
             raises net (GetCommand tn {[ "id" := JStr id ]}) (table w) e →
             ∃ w', app.GET_item env net req w = (Normal resp, w'))
  ∧ (∀ req w,
       truthy (prop (body req) "id") = true →
       truthy (prop (body req) "name") = true →
       ∃ resp,
         answers_500 resp "Failed to save item to database"
         ∧ ∀ net e,
             raises net
               (PutCommand tn
                  (stamped {[ "id" := prop (body req) "id";
                              "name" := prop (body req) "name" ]}
                     (clock w (ticks w)))) (table w) e →
             ∃ w', app.POST_items env net req w = (Normal resp, w')).
Proof.
  intros Hcfg. repeat split.
  - intros net e w Hr. eexists. split.
    + by apply (getAllItems_raises env tn Hcfg).
    + simpl. apply last_snoc.
  - intros net e id w Hid Hr. eexists. split.
    + by apply (getItemById_raises env tn Hcfg).
    + simpl. apply last_snoc.
  - intros net e item w Hi Hn Hr. eexists. split.
    + apply (putItem_raises env tn Hcfg); [by apply js_not_both | done].
    + simpl. apply last_snoc.
  - intros req w. eexists. split.
    + apply (answers_500_generic env _ (clock w (ticks w)) (path req)).
    + intros net e Hr.
      destruct (GET_items_raises env tn Hcfg net e req w Hr) as (w' & -> & Hc & Ht).
      rewrite errorHandler_new_Error by done. rewrite Hc, Ht. by eexists.
  - intros req id w Hp Hid. eexists. split.
    + apply (answers_500_generic env _ (clock w (ticks w)) (path req)).
    + intros net e Hr.
      destruct (GET_item_raises env tn Hcfg net e req id w Hp Hid Hr)
        as (w' & -> & Hc & Ht).
      rewrite errorHandler_new_Error by done. rewrite Hc, Ht. by eexists.
  - intros req w Hi Hn. eexists. split.
    + apply (answers_500_generic env _ (clock w (S (ticks w))) (path req)).
    + intros net e Hr.
      destruct (POST_items_raises env tn Hcfg net e req w (js_not_both _ _ Hi Hn) Hr)
        as (w' & -> & Hc & Ht).
      rewrite errorHandler_new_Error by done. rewrite Hc, Ht. by eexists.
Qed.

Lemma store_errors_are_flattened_witness :
  ∃ resp w',
    answers_500 resp "Failed to retrieve items from database"
    ∧ app.GET_items sample_env (Some timeout_error)
        (sample_request "GET" "/api/items" ∅ ∅) fresh_world
      = (Normal resp, w').
Proof.
  destruct (proj1 (proj2 (proj2 (proj2
              (store_errors_are_flattened sample_env "items-table"
                 (conj eq_refl (λ H, eq_ind "items-table"
                    (λ s, match s with EmptyString => False | _ => True end)
                    I "" H))))))
              (sample_request "GET" "/api/items" ∅ ∅) fresh_world)
    as (resp & H500 & Hall).
  destruct (Hall (Some timeout_error) timeout_error eq_refl) as [w' Hw'].
  exists resp, w'. split; assumption.
Defined.

(** ** The error handler on the errors of the application *)

Lemma new_Error_app_error msg : app_error (new_Error msg).
Proof.
  unfold app_error, new_Error. cbn [err_name err_statusCode err_stack].
  repeat split; try discriminate. by eexists.
Qed.

(** The errors that the service throws are [Error]s with one of five
    messages. *)
Lemma getAllItems_thrown env net w e :
  (DynamoDBService.getAllItems env net w).1 = Throws e → ∃ msg, e = new_Error msg.
Proof.
  unfold DynamoDBService.getAllItems.
  destruct (ostr_not _); [intros [= <-]; by eexists|].
  unfold try_catch, mbind, M_bind.
  destruct (send net _ w) as [[data|e'] w1]; [discriminate|].
  intros [= <-]. by eexists.
Qed.

Lemma getItemById_thrown env net id w e :
  (DynamoDBService.getItemById env net id w).1 = Throws e → ∃ msg, e = new_Error msg.
Proof.
  unfold DynamoDBService.getItemById.
  destruct (ostr_not _); [intros [= <-]; by eexists|].
  destruct (str_not id); [intros [= <-]; by eexists|].
  unfold try_catch, mbind, M_bind.
  destruct (send net _ w) as [[data|e'] w1]; [discriminate|].
  intros [= <-]. by eexists.
Qed.

Lemma putItem_thrown env net item w e :
  (DynamoDBService.putItem env net item w).1 = Throws e → ∃ msg, e = new_Error msg.
Proof.
  unfold DynamoDBService.putItem.
  destruct (ostr_not _); [intros [= <-]; by eexists|].
  destruct (_ || _); [intros [= <-]; by eexists|].
  unfold try_catch, mbind, M_bind, Date_now_toISOString.
  destruct (send net _ _) as [[data|e'] w1]; [discriminate|].
  intros [= <-]. by eexists.
Qed.

(** What a handler of the router throws, the service has thrown. *)
Lemma router_thrown env net req w e :
  (itemsRouter.get_root env net req w).1 = Throws e
  ∨ (itemsRouter.get_id env net req w).1 = Throws e
  ∨ (itemsRouter.post_root env net req w).1 = Throws e →
  ∃ msg, e = new_Error msg.
Proof.
  intros [H | [H | H]]; revert H.
  - unfold itemsRouter.get_root, mbind, M_bind, console_info, console_write.
    destruct (DynamoDBService.getAllItems env net _) as [[items|e'] w1] eqn:E;
      [discriminate|].
    intros [= <-]. apply (f_equal fst) in E.
    exact (getAllItems_thrown _ _ _ _ E).
  - unfold itemsRouter.get_id, mbind, M_bind, console_info, console_write.
    destruct (DynamoDBService.getItemById env net _ _) as [[[item|]|e'] w1] eqn:E;
      [discriminate | discriminate |].
    intros [= <-]. apply (f_equal fst) in E.
    exact (getItemById_thrown _ _ _ _ _ E).
  - unfold itemsRouter.post_root, mbind, M_bind, console_info, console_write.
    destruct (_ || _); [discriminate|].
    destruct (DynamoDBService.putItem env net _ _) as [[item|e'] w1] eqn:E;
      [discriminate|].
    intros [= <-]. apply (f_equal fst) in E.
    exact (putItem_thrown _ _ _ _ _ E).
Qed.

(** What [errorHandler] does with an error of the application. *)
Lemma errorHandler_app_error env err req w :
  app_error err →
  errorHandler env err req w =
  (Normal (response_of (default 500%Z (err_statusCode err))
     (envelope
        ((if negb (bool_decide (ENVIRONMENT env = Some "prod"))
          then <["stack" := of_ostr (err_stack err)]>
          else id)
           (envelope_fields
              (if str_not (err_message err) then "Internal Server Error"
               else err_message err)
              (default 500%Z (err_statusCode err))
              (clock w (ticks w)) (path req))))),
   w_tick (w_log
     (LogEntry LevelError
        [LStr "Error occurred:";
         LVal (JObj {[ "message" := JStr (err_message err);
                       "stack" := of_ostr (err_stack err);
                       "path" := JStr (path req);
                       "method" := JStr (method req);
                       "statusCode" := of_onum (err_statusCode err) ]})]) w)).
Proof.
  intros (N1 & N2 & N3 & Hsc & _). unfold error_status in Hsc.
  apply String.eqb_neq in N1, N2, N3.
  unfold errorHandler. rewrite N1, N2, N3.
  assert (Esc : match err_statusCode err with
                | Some n => if Z.eqb n 0 then 500%Z else n
                | None => 500%Z
                end = default 500%Z (err_statusCode err)).
  { destruct (err_statusCode err) as [n|]; [|done].
    specialize (Hsc n eq_refl). destruct (Z.eqb_spec n 0); [lia | done]. }
  rewrite Esc.
  assert (Hrange : (100 <=? default 500 (err_statusCode err))%Z
                   && (default 500 (err_statusCode err) <=? 999)%Z = true).
  { destruct (err_statusCode err) as [n|]; [|done].
    specialize (Hsc n eq_refl). simpl.
    apply andb_true_iff. split; apply Z.leb_le; lia. }
  unfold mbind, M_bind, console_error, console_write, Date_now_toISOString,
    res_status_json.
  rewrite Hrange. reflexivity.
Qed.

(** C7.  Every error of the application that reaches [errorHandler] is
    answered with the envelope
    [{ error: { message, statusCode, timestamp, path, stack? } }]: the status
    of the response, which is also the envelope's [statusCode], is the
    error's own code if it carries one and 500 otherwise; [timestamp] is the
    clock reading and [path] the request's path; and the envelope has a
    [stack], the string of the error's stack, exactly if [ENVIRONMENT] is not
    ["prod"].  The errors that the handlers of the router hand over are such
    errors. *)
Theorem errorHandler_envelope env :
  (∀ err req w, app_error err →
     ∃ resp fields w',
       errorHandler env err req w = (Normal resp, w')
       ∧ json resp = envelope fields
       ∧ status resp = default 500%Z (err_statusCode err)
       ∧ fields !! "statusCode" = Some (JNum (status resp))
       ∧ (∃ m, fields !! "message" = Some (JStr m))
       ∧ fields !! "timestamp" = Some (JStr (clock w (ticks w)))
       ∧ fields !! "path" = Some (JStr (path req))
       ∧ dom fields ⊆ ({[ "message"; "statusCode"; "timestamp"; "path"; "stack" ]}
                        : gset string)
       ∧ ("stack" ∈ dom fields ↔ ENVIRONMENT env ≠ Some "prod")
       ∧ (∀ v, fields !! "stack" = Some v →
            ∃ s, err_stack err = Some s ∧ v = JStr s))
  ∧ (∀ net req w e,
       (itemsRouter.get_root env net req w).1 = Throws e
       ∨ (itemsRouter.get_id env net req w).1 = Throws e
       ∨ (itemsRouter.post_root env net req w).1 = Throws e →
       app_error e).
Proof.
  split.
  - intros err req w Happ.
    eexists _, _, _. split; [by apply errorHandler_app_error|].
    split; [reflexivity|]. cbn [status json response_of].
    destruct Happ as (_ & _ & _ & _ & [s Hs]).
    set (message := if str_not (err_message err) then "Internal Server Error"
                    else err_message err).
    set (statusCode := default 500%Z (err_statusCode err)).
    assert (Hstack : ∀ f : jsobj → jsobj,
              f = (if negb (bool_decide (ENVIRONMENT env = Some "prod"))
                   then <["stack" := of_ostr (err_stack err)]> else id) →
              ∀ k, k ≠ "stack" →
                f (envelope_fields message statusCode (clock w (ticks w)) (path req))
                  !! k
                = envelope_fields message statusCode (clock w (ticks w)) (path req)
                    !! k).
    { intros f -> k Hk. destruct (negb _); [|done]. by rewrite lookup_insert_ne. }
    split; [done|].
    split. { rewrite (Hstack _ eq_refl) by done. apply envelope_fields_statusCode. }
    split. { exists message. rewrite (Hstack _ eq_refl) by done.
             apply envelope_fields_message. }
    split. { rewrite (Hstack _ eq_refl) by done. apply envelope_fields_timestamp. }
    split. { rewrite (Hstack _ eq_refl) by done. apply envelope_fields_path. }
    split.
    { destruct (negb _); cbv [id].
      - rewrite dom_insert_L, envelope_fields_dom, (comm_L (∪)). reflexivity.
      - rewrite envelope_fields_dom. apply union_subseteq_l. }
    split.
    { rewrite elem_of_dom.
      destruct (bool_decide_reflect (ENVIRONMENT env = Some "prod")) as [Hp|Hp];
        cbv [negb id].
      - rewrite envelope_fields_stack. split; [by intros [? [=]] | done].
      - rewrite lookup_insert_eq. split; [done | by eexists]. }
    intros v. rewrite Hs. destruct (negb _); cbv [id].
    + rewrite lookup_insert_eq. intros [= <-]. by exists s.
    + by rewrite envelope_fields_stack.
  - intros net req w e H.
    destruct (router_thrown env net req w e H) as [msg ->].
    apply new_Error_app_error.
Qed.

Lemma errorHandler_envelope_witness :
  ∃ resp w',
    errorHandler sample_env payload_too_large
      (sample_request "POST" "/api/items" ∅ ∅) fresh_world = (Normal resp, w')
    ∧ status resp = 413%Z.
Proof.
  assert (Happ : app_error payload_too_large).
  { unfold app_error, payload_too_large.
    cbn [err_name err_statusCode err_stack].
    do 3 (split; [discriminate|]).
    split; [intros n [= <-]; lia | by eexists]. }
  destruct (proj1 (errorHandler_envelope sample_env) payload_too_large
              (sample_request "POST" "/api/items" ∅ ∅) fresh_world Happ)
    as (resp & fields & w' & Hrun & _ & Hst & _).
  exists resp, w'. split; assumption.
Defined.

(** ** An empty id *)




(** ** Listing *)

Lemma one_page_empty w : table w = ∅ → one_page w = [].
Proof.
  intros Hw. unfold one_page, scan_order. rewrite Hw, map_to_list_empty.
  apply take_nil.
Qed.

(** A table that fits one page is listed whole. *)
Lemma one_page_whole w : fits_one_page w → one_page w = scan_order (table w).
Proof. intros Hfit. unfold one_page. by apply take_ge. Qed.

Lemma getAllItems_Normal_inv env net w items w1 :
  DynamoDBService.getAllItems env net w = (Normal items, w1) →
  ∃ tn, configured env tn ∧ net = None ∧ items = one_page w.
Proof.
  intros Hget.
  destruct (SAMPLE_TABLE env) as [tn|] eqn:Etn; cycle 1.
  { unfold DynamoDBService.getAllItems, DynamoDBService.tableName in Hget.
    rewrite Etn in Hget. discriminate. }
  destruct (str_not tn) eqn:Ene.
  { unfold DynamoDBService.getAllItems, DynamoDBService.tableName in Hget.
    rewrite Etn in Hget. simpl in Hget. rewrite Ene in Hget. discriminate. }
  assert (Hcfg : configured env tn) by (split; [done | by apply str_not_false]).
  rewrite (getAllItems_run env tn Hcfg) in Hget.
  destruct net; [discriminate|]. injection Hget as <- _. by exists tn.
Qed.

Lemma GET_items_run env tn net req w :
  configured env tn → net = None →
  ∃ w', app.GET_items env net req w =
    (Normal (res_json (JArr (JObj <$> one_page w))), w').
Proof.
  intros Hcfg ->. eexists. apply items_route_normal.
  unfold itemsRouter.get_root, mbind, M_bind, console_info, console_write.
  rewrite (getAllItems_run env tn Hcfg). reflexivity.
Qed.

(** C9. On a table that holds no items [getAllItems] returns the empty
    array and does not throw, and GET /api/items answers 200 with a JSON
    array, the array of the items, whenever [getAllItems] returns. *)
Theorem getAllItems_empty_table env tn req :
  configured env tn →
  (∀ w, table w = ∅ →
     ∃ w', DynamoDBService.getAllItems env None w = (Normal [], w'))
  ∧ (∀ w, table w = ∅ →
       ∃ resp w', app.GET_items env None req w = (Normal resp, w')
         ∧ status resp = 200%Z ∧ json resp = JArr [])
  ∧ (∀ net w items w1,
       DynamoDBService.getAllItems env net w = (Normal items, w1) →
       ∃ resp w', app.GET_items env net req w = (Normal resp, w')
         ∧ status resp = 200%Z ∧ json resp = JArr (JObj <$> items)).
Proof.
  intros Hcfg. split; [|split].
  - intros w Hw. eexists. rewrite (getAllItems_run env tn Hcfg).
    by rewrite one_page_empty.
  - intros w Hw.
    destruct (GET_items_run env tn None req w Hcfg eq_refl) as [w' Hrun].
    rewrite one_page_empty in Hrun by done. by eexists _, _.
  - intros net w items w1 Hget.
    apply getAllItems_Normal_inv in Hget as (tn' & _ & -> & ->).
    destruct (GET_items_run env tn None req w Hcfg eq_refl) as [w' Hrun].
    by eexists _, _.
Qed.

Lemma getAllItems_empty_table_witness :
  ∃ resp w',
    app.GET_items sample_env None (sample_request "GET" "/api/items" ∅ ∅)
      fresh_world = (Normal resp, w')
    ∧ status resp = 200%Z ∧ json resp = JArr [].
Proof.
  refine (proj1 (proj2
            (getAllItems_empty_table sample_env "items-table"
               (sample_request "GET" "/api/items" ∅ ∅) _)) fresh_world _).
  - split; [reflexivity | discriminate].
  - reflexivity.
Defined.

(** ** What a POST hands to the write *)

Lemma putItem_unconfigured env net item w :
  ostr_not (DynamoDBService.tableName env) = true →
  DynamoDBService.putItem env net item w =
  (Throws (new_Error "SAMPLE_TABLE environment variable is not set"), w).
Proof. intros H. unfold DynamoDBService.putItem. by rewrite H. Qed.

Lemma configured_or_not env :
  (∃ tn, configured env tn) ∨ ostr_not (DynamoDBService.tableName env) = true.
Proof.
  unfold DynamoDBService.tableName, configured.
  destruct (SAMPLE_TABLE env) as [tn|]; [|by right].
  simpl. destruct (str_not tn) eqn:E; [by right|].
  left. exists tn. split; [done | by apply str_not_false].
Qed.

(** Past its guard the POST handler calls [putItem] with the object
    [{ id, name }] and answers with what [putItem] returns. *)
Lemma post_root_accepts env net req w :
  js_not (prop (body req) "id") || js_not (prop (body req) "name") = false →
  ∃ entry,
    entry = LogEntry LevelInfo
              [LStr "Create/update item request received:";
               LVal (JObj {[ "body" := JObj (body req);
                             "method" := JStr (method req);
                             "path" := JStr (path req) ]})]
    ∧ itemsRouter.post_root env net req w =
    match DynamoDBService.putItem env net
            {[ "id" := prop (body req) "id"; "name" := prop (body req) "name" ]}
            (w_log entry w) with
    | (Normal item, w1) =>
        (Normal (res_json (JObj item)),
         w_log (LogEntry LevelInfo
                  [LStr ("Successfully created/updated item with id: "
                         +:+ js_to_string (prop (body req) "id"))]) w1)
    | (Throws e, w1) => (Throws e, w1)
    end.
Proof.
  intros Hv. eexists. split; [reflexivity|]. unfold itemsRouter.post_root.
  unfold mbind at 1. unfold M_bind at 1. unfold console_info, console_write.
  rewrite Hv. unfold mbind at 1. unfold M_bind at 1.
  destruct (DynamoDBService.putItem _ _ _ _) as [[item|e] w1]; reflexivity.
Qed.

Lemma stamped_id_name_dom (a b : jsval) ts :
  dom (stamped {[ "id" := a; "name" := b ]} ts)
  = ({[ "id"; "name"; "createdAt"; "updatedAt" ]} : gset string).
Proof.
  unfold stamped. rewrite !dom_insert_L, dom_singleton_L. set_solver.
Qed.

(** C10. Whatever else the body of a POST holds, the only command the
    request can add to those handed to the document client is a
    [PutCommand] whose item is built from the body's [id] and [name] and the
    two timestamps; and when the POST succeeds, the record in the table and
    in the response has exactly the fields [id], [name], [createdAt] and
    [updatedAt]. *)
Theorem post_writes_only_id_and_name env net req w resp w' :
  app.POST_items env net req w = (Normal resp, w') →
  (sent w' = sent w
   ∨ ∃ tn ts,
       sent w' = (sent w ++
         [PutCommand tn
            (stamped {[ "id" := prop (body req) "id";
                        "name" := prop (body req) "name" ]} ts)])%list)
  ∧ (status resp = 200%Z →
     ∃ i ts r,
       prop (body req) "id" = JStr i
       ∧ r = stamped {[ "id" := JStr i; "name" := prop (body req) "name" ]} ts
       ∧ table w' !! i = Some r
       ∧ json resp = JObj r
       ∧ dom r = ({[ "id"; "name"; "createdAt"; "updatedAt" ]} : gset string)).
Proof.
  intros Hrun. unfold app.POST_items, app.items_route, try_catch in Hrun.
  destruct (js_not (prop (body req) "id") || js_not (prop (body req) "name"))
    eqn:Ev.
  { rewrite (post_root_rejects env net (app.router_request req) w Ev) in Hrun.
    injection Hrun as <- <-. split; [by left | discriminate]. }
  destruct (post_root_accepts env net (app.router_request req) w Ev)
    as (entry & _ & Hpost).
  rewrite Hpost in Hrun. clear Hpost.
  change (body (app.router_request req)) with (body req) in Hrun.
  assert (Ev' : js_not (prop ({[ "id" := prop (body req) "id";
                                  "name" := prop (body req) "name" ]} : jsobj) "id")
                || js_not (prop ({[ "id" := prop (body req) "id";
                                    "name" := prop (body req) "name" ]} : jsobj)
                             "name") = false).
  { unfold prop at 1 3. by simplify_map_eq. }
  destruct (configured_or_not env) as [[tn Hcfg] | Hno].
  - rewrite (putItem_run env tn Hcfg net _ _ Ev') in Hrun. cbv zeta in Hrun.
    destruct net as [e|].
    { destruct (errorHandler_new_Error_500 env "Failed to save item to database"
                  req (w_log (error_line "Error putting item:" e)
                         (w_sent (PutCommand tn
                            (stamped {[ "id" := prop (body req) "id";
                                        "name" := prop (body req) "name" ]}
                               (clock (w_log entry w) (ticks (w_log entry w)))))
                            (table (w_log entry w)) (w_tick (w_log entry w)))))
        as (resp' & w'' & Heq & [Hst _] & _ & Hs); [done|].
      rewrite Heq in Hrun. injection Hrun as <- <-.
      split; [|rewrite Hst; discriminate].
      right. eexists _, _. rewrite Hs. reflexivity. }
    destruct (key_of _) as [i|] eqn:Ek.
    + injection Hrun as <- <-. split.
      { right. by eexists _, _. }
      intros _. apply key_of_Some in Ek as [Hid _].
      rewrite lookup_insert_eq in Hid. injection Hid as Hid.
      eexists i, (clock w (ticks w)), _. split; [done|]. split; [reflexivity|].
      cbn [json res_json table w_log w_sent w_tick clock ticks]. rewrite Hid.
      split; [apply lookup_insert_eq|]. split; [done | apply stamped_id_name_dom].
    + destruct (errorHandler_new_Error_500 env "Failed to save item to database"
                  req (w_log (error_line "Error putting item:" ValidationException)
                         (w_sent (PutCommand tn
                            (stamped {[ "id" := prop (body req) "id";
                                        "name" := prop (body req) "name" ]}
                               (clock (w_log entry w) (ticks (w_log entry w)))))
                            (table (w_log entry w)) (w_tick (w_log entry w)))))
        as (resp' & w'' & Heq & [Hst _] & _ & Hs); [done|].
      rewrite Heq in Hrun. injection Hrun as <- <-.
      split; [|rewrite Hst; discriminate].
      right. eexists _, _. rewrite Hs. reflexivity.
  - rewrite (putItem_unconfigured env net _ _ Hno) in Hrun.
    destruct (errorHandler_new_Error_500 env
                "SAMPLE_TABLE environment variable is not set" req (w_log entry w))
      as (resp' & w'' & Heq & [Hst _] & _ & Hs); [done|].
    rewrite Heq in Hrun. injection Hrun as <- <-.
    split; [by left | rewrite Hst; discriminate].
Qed.

Lemma post_writes_only_id_and_name_witness :
  ∃ resp w',
    app.POST_items sample_env None
      (sample_request "POST" "/api/items" ∅
         {[ "id" := JStr "id1"; "name" := JStr "name1";
            "role" := JStr "admin"; "createdAt" := JStr "1999-12-31" ]})
      fresh_world = (Normal resp, w')
    ∧ status resp = 200%Z
    ∧ ∃ r, table w' !! "id1" = Some r
        ∧ json resp = JObj r
        ∧ dom r = ({[ "id"; "name"; "createdAt"; "updatedAt" ]} : gset string)
        ∧ r !! "createdAt" = Some (JStr "2025-01-01T00:00:00.000Z").
Proof.
  set (req := sample_request "POST" "/api/items" ∅
                {[ "id" := JStr "id1"; "name" := JStr "name1";
                   "role" := JStr "admin"; "createdAt" := JStr "1999-12-31" ]}).
  assert (Hrun : app.POST_items sample_env None req fresh_world
                 = (Normal (res_json (JObj (stamped
                      {[ "id" := JStr "id1"; "name" := JStr "name1" ]}
                      (sample_clock 0)))),
                    (app.POST_items sample_env None req fresh_world).2))
    by reflexivity.
  destruct (proj2 (post_writes_only_id_and_name sample_env None req fresh_world
                     _ _ Hrun) eq_refl)
    as (i & ts & r & Hid & Hr & Ht & Hj & Hd).
  injection Hid as <-.
  eexists _, _. split; [exact Hrun|]. split; [reflexivity|].
  exists r. split; [exact Ht|]. split; [exact Hj|]. split; [exact Hd|].
  injection Hj as <-. reflexivity.
Defined.

(** * Further properties of the service, the router and the error handler *)

(** ** The table name is not set *)

Lemma ostr_not_unset (s : option string) :
  s = None ∨ s = Some "" → ostr_not s = true.
Proof. by intros [-> | ->]. Qed.

(** The error handler changes neither the table nor the commands sent,
    whether it answers or throws. *)
Lemma errorHandler_world env err req w :
  table (errorHandler env err req w).2 = table w
  ∧ sent (errorHandler env err req w).2 = sent w.
Proof.
  unfold errorHandler, mbind, M_bind, console_error, console_write,
    Date_now_toISOString, res_status_json, mret, M_ret, throw.
  destruct (if String.eqb (err_name err) "ValidationError" then _ else _)
    as [statusCode message].
  by destruct (_ && _).
Qed.

(** With [SAMPLE_TABLE] unset or empty, each operation of the service throws
    the configuration error before it looks at its argument and before any
    store call, and leaves the world as it was; the list and read routes
    answer 500 with that message. *)
Theorem unset_table_name_stops_every_operation env net w :
  SAMPLE_TABLE env = None ∨ SAMPLE_TABLE env = Some "" →
  DynamoDBService.getAllItems env net w
    = (Throws (new_Error "SAMPLE_TABLE environment variable is not set"), w)
  ∧ (∀ id, DynamoDBService.getItemById env net id w
       = (Throws (new_Error "SAMPLE_TABLE environment variable is not set"), w))
  ∧ (∀ item, DynamoDBService.putItem env net item w
       = (Throws (new_Error "SAMPLE_TABLE environment variable is not set"), w))
  ∧ (∀ req, ∃ resp w',
       app.GET_items env net req w = (Normal resp, w')
       ∧ answers_500 resp "SAMPLE_TABLE environment variable is not set"
       ∧ sent w' = sent w)
  ∧ (∀ req, ∃ resp w',
       app.GET_item env net req w = (Normal resp, w')
       ∧ answers_500 resp "SAMPLE_TABLE environment variable is not set"
       ∧ sent w' = sent w).
Proof.
  intros Hunset. apply ostr_not_unset in Hunset.
  assert (Hall : ∀ w0, DynamoDBService.getAllItems env net w0
            = (Throws (new_Error "SAMPLE_TABLE environment variable is not set"), w0)).
  { intros w0. unfold DynamoDBService.getAllItems, DynamoDBService.tableName.
    by rewrite Hunset. }
  assert (Hget : ∀ id w0, DynamoDBService.getItemById env net id w0
            = (Throws (new_Error "SAMPLE_TABLE environment variable is not set"), w0)).
  { intros id w0. unfold DynamoDBService.getItemById, DynamoDBService.tableName.
    by rewrite Hunset. }
  split; [apply Hall|]. split; [intros id; apply Hget|]. split.
  { intros item. by apply putItem_unconfigured. }
  split.
  - intros req.
    destruct (errorHandler_new_Error_500 env
                "SAMPLE_TABLE environment variable is not set" req
                (w_log (LogEntry LevelInfo
                   [LStr "Getting all items request received:";
                    LVal (JObj {[ "method" := JStr (method (app.router_request req));
                                  "path" := JStr (path (app.router_request req));
                                  "headers" := JObj (headers (app.router_request req)) ]})])
                   w))
      as (resp & w' & Heq & H500 & _ & Hs); [done|].
    exists resp, w'. split; [|by split].
    rewrite <- Heq. apply items_route_throws.
    unfold itemsRouter.get_root, mbind, M_bind, console_info, console_write.
    by rewrite Hall.
  - intros req.
    destruct (errorHandler_new_Error_500 env
                "SAMPLE_TABLE environment variable is not set" req
                (w_log (LogEntry LevelInfo
                   [LStr "Getting item by ID request received:";
                    LVal (JObj {[ "id" := JStr (req_param (app.router_request req) "id");
                                  "method" := JStr (method (app.router_request req));
                                  "path" := JStr (path (app.router_request req)) ]})])
                   w))
      as (resp & w' & Heq & H500 & _ & Hs); [done|].
    exists resp, w'. split; [|by split].
    rewrite <- Heq. apply items_route_throws.
    unfold itemsRouter.get_id, mbind, M_bind, console_info, console_write.
    by rewrite Hget.
Qed.

Lemma unset_table_name_stops_every_operation_witness :
  DynamoDBService.getItemById
    {| SAMPLE_TABLE := None; ENVIRONMENT := Some "dev" |} None "" fresh_world
  = (Throws (new_Error "SAMPLE_TABLE environment variable is not set"), fresh_world).
Proof.
  apply (proj1 (proj2 (unset_table_name_stops_every_operation
                         {| SAMPLE_TABLE := None; ENVIRONMENT := Some "dev" |}
                         None fresh_world (or_introl eq_refl)))).
Defined.

(** ** Writes replace, and touch one id *)

(** Two successful writes under one id, of items that hold [undefined]
    nowhere: a read then returns the record of the second write, field for
    field; nothing of the first survives. *)
Theorem second_write_replaces_the_record
    env net1 net2 item1 item2 i w r1 w1 r2 w2 :
  map_Forall (λ _, defined) item1 → map_Forall (λ _, defined) item2 →
  item1 !! "id" = Some (JStr i) → item2 !! "id" = Some (JStr i) →
  DynamoDBService.putItem env net1 item1 w = (Normal r1, w1) →
  DynamoDBService.putItem env net2 item2 w1 = (Normal r2, w2) →
  ∃ w3,
    DynamoDBService.getItemById env None i w2 = (Normal (Some r2), w3)
    ∧ r2 = stamped item2 (clock w1 (ticks w1))
    ∧ r2 !! "name" = item2 !! "name"
    ∧ (∀ k, item2 !! k = None → k ≠ "createdAt" → k ≠ "updatedAt" →
         r2 !! k = None).
Proof.
  intros _ _ Hid1 Hid2 Hput1 Hput2.
  apply putItem_Normal_inv in Hput2
    as (tn & i' & Hcfg & _ & Hk & _ & -> & ->).
  apply key_of_Some in Hk as [Hid Hne].
  rewrite Hid2 in Hid. injection Hid as <-.
  eexists. split.
  - rewrite (getItemById_run env tn Hcfg None i _ Hne). simpl.
    rewrite lookup_insert_eq. reflexivity.
  - split; [done|]. split; [apply stamped_name|].
    intros k Hk Hc Hu. unfold stamped. by rewrite !lookup_insert_ne.
Qed.

Lemma second_write_replaces_the_record_witness :
  ∃ r2 w2 w3,
    DynamoDBService.putItem sample_env None
      {[ "id" := JStr "id1"; "name" := JStr "name2" ]}
      (DynamoDBService.putItem sample_env None
         {[ "id" := JStr "id1"; "name" := JStr "name1"; "note" := JStr "draft" ]}
         fresh_world).2 = (Normal r2, w2)
    ∧ DynamoDBService.getItemById sample_env None "id1" w2 = (Normal (Some r2), w3)
    ∧ r2 !! "name" = Some (JStr "name2")
    ∧ r2 !! "note" = None.
Proof.
  set (item1 := ({[ "id" := JStr "id1"; "name" := JStr "name1";
                    "note" := JStr "draft" ]} : jsobj)).
  set (item2 := ({[ "id" := JStr "id1"; "name" := JStr "name2" ]} : jsobj)).
  set (o1 := DynamoDBService.putItem sample_env None item1 fresh_world).
  set (o2 := DynamoDBService.putItem sample_env None item2 o1.2).
  assert (H1 : o1 = (Normal (stamped item1 (sample_clock 0)), o1.2)) by reflexivity.
  assert (H2 : o2 = (Normal (stamped item2 (sample_clock 1)), o2.2)) by reflexivity.
  assert (Hd1 : map_Forall (λ _, defined) item1).
  { repeat (apply map_Forall_insert_2; [constructor|]).
    apply map_Forall_empty. }
  assert (Hd2 : map_Forall (λ _, defined) item2).
  { repeat (apply map_Forall_insert_2; [constructor|]).
    apply map_Forall_empty. }
  destruct (second_write_replaces_the_record sample_env None None item1 item2
              "id1" fresh_world _ _ _ _ Hd1 Hd2 eq_refl eq_refl H1 H2)
    as (w3 & Hget & _ & Hname & Hrest).
  eexists _, _, w3. split; [exact H2|]. split; [exact Hget|].
  split; [exact Hname|]. apply Hrest; [reflexivity | discriminate | discriminate].
Defined.

(** [putItem] changes no record but the one under its item's id, and none
    at all when it throws. *)
Theorem putItem_touches_only_its_id env net item w :
  (∀ j, item !! "id" ≠ Some (JStr j) →
     table (DynamoDBService.putItem env net item w).2 !! j = table w !! j)
  ∧ (∀ e, (DynamoDBService.putItem env net item w).1 = Throws e →
       table (DynamoDBService.putItem env net item w).2 = table w).
Proof.
  split.
  - intros j Hj.
    destruct (putItem_table env net item w) as [-> | (i & r & Hid & _ & ->)];
      [done|].
    rewrite lookup_insert_ne; [done|]. intros ->. by apply Hj.
  - intros e He.
    destruct (putItem_table env net item w) as [-> | (i & r & _ & Hr & _)];
      [done|].
    rewrite Hr in He. discriminate.
Qed.

(** ** Reads *)

Lemma items_route_table env h req w :
  (∀ req' w0, table (h req' w0).2 = table w0) →
  table (app.items_route env h req w).2 = table w.
Proof.
  intros Hh. unfold app.items_route, try_catch.
  specialize (Hh (app.router_request req) w).
  destruct (h (app.router_request req) w) as [[resp|e] w1]; [done|].
  destruct (errorHandler_world env e req w1) as [Ht _].
  simpl in *. congruence.
Qed.

(** The two GET routes never change the table, whatever the environment,
    the request and the state of the service. *)
Theorem reads_never_write env net req w :
  table (app.GET_items env net req w).2 = table w
  ∧ table (app.GET_item env net req w).2 = table w.
Proof.
  split; apply items_route_table; intros req' w0.
  - unfold itemsRouter.get_root, mbind, M_bind, console_info, console_write.
    pose proof (getAllItems_table env net
                  (w_log (LogEntry LevelInfo
                     [LStr "Getting all items request received:";
                      LVal (JObj {[ "method" := JStr (method req');
                                    "path" := JStr (path req');
                                    "headers" := JObj (headers req') ]})]) w0))
      as Ht.
    destruct (DynamoDBService.getAllItems env net _) as [[items|e] w1];
      simpl in *; done.
  - unfold itemsRouter.get_id, mbind, M_bind, console_info, console_write.
    pose proof (getItemById_table env net (req_param req' "id")
                  (w_log (LogEntry LevelInfo
                     [LStr "Getting item by ID request received:";
                      LVal (JObj {[ "id" := JStr (req_param req' "id");
                                    "method" := JStr (method req');
                                    "path" := JStr (path req') ]})]) w0))
      as Ht.
    destruct (DynamoDBService.getItemById env net _ _) as [[[item|]|e] w1];
      simpl in *; done.
Qed.



(** GET /api/items/{id} for an id that is in the table answers 200 with the
    stored record, unchanged. *)
Theorem GET_item_found env tn req i r w :
  configured env tn → params req !! "id" = Some i → i ≠ "" →
  table w !! i = Some r →
  ∃ resp w',
    app.GET_item env None req w = (Normal resp, w')
    ∧ status resp = 200%Z ∧ json resp = JObj r.
Proof.
  intros Hcfg Hp Hi Hr.
  destruct (get_id_present env tn (app.router_request req) i r w Hcfg Hp Hi Hr)
    as (w' & Hget & _).
  eexists _, w'. split; [apply items_route_normal, Hget | done].
Qed.

Lemma GET_item_found_witness :
  ∃ resp w',
    app.GET_item sample_env None
      (sample_request "GET" "/api/items/id1" {[ "id" := "id1" ]} ∅)
      (DynamoDBService.putItem sample_env None
         {[ "id" := JStr "id1"; "name" := JStr "name1" ]} fresh_world).2
    = (Normal resp, w')
    ∧ status resp = 200%Z
    ∧ json resp = JObj (stamped {[ "id" := JStr "id1"; "name" := JStr "name1" ]}
                          (sample_clock 0)).
Proof.
  apply (GET_item_found sample_env "items-table"
           (sample_request "GET" "/api/items/id1" {[ "id" := "id1" ]} ∅) "id1").
  - split; [reflexivity | discriminate].
  - reflexivity.
  - discriminate.
  - reflexivity.
Defined.

(** ** POST, case by case *)

Lemma POST_items_accepts env tn req i w :
  configured env tn →
  prop (body req) "id" = JStr i → i ≠ "" →
  truthy (prop (body req) "name") = true →
  ∃ w1,
    app.POST_items env None req w
    = (Normal (res_json (JObj (stamped {[ "id" := JStr i;
                                          "name" := prop (body req) "name" ]}
                                 (clock w (ticks w))))), w1)
    ∧ table w1 = <[i := stamped {[ "id" := JStr i;
                                   "name" := prop (body req) "name" ]}
                        (clock w (ticks w))]> (table w).
Proof.
  intros Hcfg Hid Hi Hname.
  assert (Ev : js_not (prop (body (app.router_request req)) "id")
               || js_not (prop (body (app.router_request req)) "name") = false).
  { change (body (app.router_request req)) with (body req).
    apply js_not_both; [|done]. rewrite Hid. simpl.
    apply str_not_false in Hi. unfold str_not in Hi. by rewrite Hi. }
  destruct (post_root_accepts env None (app.router_request req) w Ev)
    as (entry & _ & Hpost).
  change (body (app.router_request req)) with (body req) in Hpost, Ev.
  assert (Ev' : js_not (prop ({[ "id" := prop (body req) "id";
                                  "name" := prop (body req) "name" ]} : jsobj) "id")
                || js_not (prop ({[ "id" := prop (body req) "id";
                                    "name" := prop (body req) "name" ]} : jsobj)
                             "name") = false).
  { unfold prop at 1 3. by simplify_map_eq. }
  rewrite (putItem_run env tn Hcfg None _ _ Ev') in Hpost. cbv zeta in Hpost.
  rewrite Hid in Hpost.
  rewrite (key_of_str _ i) in Hpost; [|apply lookup_insert_eq | done].
  eexists. split; [apply items_route_normal, Hpost | done].
Qed.

(** A successful POST followed by a GET of the same id: the GET answers 200
    with the very body the POST answered. *)
Theorem POST_then_GET_round_trip env tn req req' i w :
  configured env tn →
  prop (body req) "id" = JStr i → i ≠ "" →
  truthy (prop (body req) "name") = true →
  params req' !! "id" = Some i →
  ∃ posted w1 got w2,
    app.POST_items env None req w = (Normal posted, w1)
    ∧ app.GET_item env None req' w1 = (Normal got, w2)
    ∧ status posted = 200%Z ∧ status got = 200%Z
    ∧ json got = json posted
    ∧ ∃ r, json posted = JObj r
        ∧ r !! "id" = Some (JStr i)
        ∧ r !! "name" = Some (prop (body req) "name").
Proof.
  intros Hcfg Hid Hi Hname Hp.
  destruct (POST_items_accepts env tn req i w Hcfg Hid Hi Hname)
    as (w1 & Hpost & Ht).
  destruct (get_id_present env tn (app.router_request req') i
              (stamped {[ "id" := JStr i; "name" := prop (body req) "name" ]}
                 (clock w (ticks w))) w1 Hcfg Hp Hi)
    as (w2 & Hget & _).
  { rewrite Ht. apply lookup_insert_eq. }
  eexists _, w1, _, w2. split; [exact Hpost|].
  split; [apply items_route_normal, Hget|].
  split; [done|]. split; [done|]. split; [done|].
  eexists. split; [reflexivity|].
  rewrite stamped_id, stamped_name. by simplify_map_eq.
Qed.

Lemma POST_then_GET_round_trip_witness :
  ∃ posted w1 got w2,
    app.POST_items sample_env None
      (sample_request "POST" "/api/items" ∅
         {[ "id" := JStr "id1"; "name" := JStr "name1" ]}) fresh_world
    = (Normal posted, w1)
    ∧ app.GET_item sample_env None
        (sample_request "GET" "/api/items/id1" {[ "id" := "id1" ]} ∅) w1
      = (Normal got, w2)
    ∧ status posted = 200%Z ∧ status got = 200%Z
    ∧ json got = json posted
    ∧ ∃ r, json posted = JObj r
        ∧ r !! "id" = Some (JStr "id1")
        ∧ r !! "name" = Some (JStr "name1").
Proof.
  refine (POST_then_GET_round_trip sample_env "items-table"
            (sample_request "POST" "/api/items" ∅
               {[ "id" := JStr "id1"; "name" := JStr "name1" ]})
            (sample_request "GET" "/api/items/id1" {[ "id" := "id1" ]} ∅)
            "id1" fresh_world _ _ _ _ _).
  - split; [reflexivity | discriminate].
  - reflexivity.
  - discriminate.
  - reflexivity.
  - reflexivity.
Defined.

(** The outcomes of a POST, whatever the environment, the request and the
    state of the service. *)
Lemma POST_items_cases env net req w :
  ∃ resp w',
    app.POST_items env net req w = (Normal resp, w')
    ∧ ((js_not (prop (body req) "id") || js_not (prop (body req) "name") = true
        ∧ status resp = 400%Z ∧ table w' = table w)
       ∨ (js_not (prop (body req) "id") || js_not (prop (body req) "name") = false
          ∧ status resp = 500%Z ∧ table w' = table w)
       ∨ (js_not (prop (body req) "id") || js_not (prop (body req) "name") = false
          ∧ status resp = 200%Z
          ∧ ∃ i, prop (body req) "id" = JStr i ∧ i ≠ ""
              ∧ table w' !! i
                = Some (stamped {[ "id" := JStr i;
                                   "name" := prop (body req) "name" ]}
                          (clock w (ticks w))))).
Proof.
  unfold app.POST_items, app.items_route, try_catch.
  destruct (js_not (prop (body req) "id") || js_not (prop (body req) "name"))
    eqn:Ev.
  { rewrite (post_root_rejects env net (app.router_request req) w Ev).
    eexists _, _. split; [reflexivity|]. left. done. }
  destruct (post_root_accepts env net (app.router_request req) w Ev)
    as (entry & -> & Hpost).
  rewrite Hpost. clear Hpost.
  change (body (app.router_request req)) with (body req).
  assert (Ev' : js_not (prop ({[ "id" := prop (body req) "id";
                                  "name" := prop (body req) "name" ]} : jsobj) "id")
                || js_not (prop ({[ "id" := prop (body req) "id";
                                    "name" := prop (body req) "name" ]} : jsobj)
                             "name") = false).
  { unfold prop at 1 3. by simplify_map_eq. }
  destruct (configured_or_not env) as [[tn Hcfg] | Hno].
  - rewrite (putItem_run env tn Hcfg net _ _ Ev'). cbv zeta.
    destruct net as [e|].
    { match goal with
      | |- context [errorHandler env ?err req ?w0] =>
          destruct (errorHandler_new_Error_500 env
                      "Failed to save item to database" req w0)
            as (resp & w' & Heq & [Hst _] & Ht & _); [done|]
      end.
      rewrite Heq. eexists _, _. split; [reflexivity|].
      right. left. split; [done|]. split; [done|]. by rewrite Ht. }
    destruct (key_of _) as [i|] eqn:Ek.
    + eexists _, _. split; [reflexivity|]. right. right.
      split; [done|]. split; [done|].
      apply key_of_Some in Ek as [Hid Hi].
      rewrite lookup_insert_eq in Hid. injection Hid as Hid.
      exists i. split; [done|]. split; [done|].
      cbn [table w_log w_sent w_tick clock ticks]. rewrite Hid.
      apply lookup_insert_eq.
    + match goal with
      | |- context [errorHandler env ?err req ?w0] =>
          destruct (errorHandler_new_Error_500 env
                      "Failed to save item to database" req w0)
            as (resp & w' & Heq & [Hst _] & Ht & _); [done|]
      end.
      rewrite Heq. eexists _, _. split; [reflexivity|].
      right. left. split; [done|]. split; [done|]. by rewrite Ht.
  - rewrite (putItem_unconfigured env net _ _ Hno).
    match goal with
    | |- context [errorHandler env ?err req ?w0] =>
        destruct (errorHandler_new_Error_500 env
                    "SAMPLE_TABLE environment variable is not set" req w0)
          as (resp & w' & Heq & [Hst _] & Ht & _); [done|]
    end.
    rewrite Heq. eexists _, _. split; [reflexivity|].
    right. left. split; [done|]. split; [done|]. by rewrite Ht.
Qed.

(** POST /api/items always answers, with 200, 400 or 500.  It answers 400
    exactly if the body's [id] or [name] is falsy (absent, [null], [false],
    [0] or the empty string), and unless it answers 200 the table is as it
    was. *)
Theorem POST_items_status env net req w :
  ∃ resp w',
    app.POST_items env net req w = (Normal resp, w')
    ∧ (status resp = 200%Z ∨ status resp = 400%Z ∨ status resp = 500%Z)
    ∧ (status resp = 400%Z ↔
       truthy (prop (body req) "id") = false
       ∨ truthy (prop (body req) "name") = false)
    ∧ (status resp ≠ 200%Z → table w' = table w).
Proof.
  destruct (POST_items_cases env net req w) as (resp & w' & Hrun & Hcase).
  exists resp, w'. split; [exact Hrun|].
  assert (Hguard : js_not (prop (body req) "id") || js_not (prop (body req) "name")
                   = true ↔
                   truthy (prop (body req) "id") = false
                   ∨ truthy (prop (body req) "name") = false).
  { unfold js_not. rewrite orb_true_iff, !negb_true_iff. done. }
  destruct Hcase as [(Hg & Hs & Ht) | [(Hg & Hs & Ht) | (Hg & Hs & _)]];
    rewrite Hs.
  - split; [auto|]. split; [|done]. split; [intros _; by apply Hguard | done].
  - split; [auto|]. split; [|done]. split; [discriminate|].
    intros Hf. apply Hguard in Hf. congruence.
  - split; [auto|]. split; [|done]. split; [discriminate|].
    intros Hf. apply Hguard in Hf. congruence.
Qed.

(** ** The service's own guard, and the message of the error handler *)

(** With the table name set, [putItem] throws
    [Error('Both id and name are required')] exactly if the item's [id] or
    [name] is falsy, and then it has made no store call, read no clock and
    written nothing: the world is as it was. *)
Theorem putItem_rejects_falsy_fields env tn net item w :
  configured env tn →
  ((DynamoDBService.putItem env net item w).1
     = Throws (new_Error "Both id and name are required")
   ↔ truthy (prop item "id") = false ∨ truthy (prop item "name") = false)
  ∧ (truthy (prop item "id") = false ∨ truthy (prop item "name") = false →
     (DynamoDBService.putItem env net item w).2 = w).
Proof.
  intros Hcfg.
  assert (Hguard : js_not (prop item "id") || js_not (prop item "name") = true ↔
                   truthy (prop item "id") = false
                   ∨ truthy (prop item "name") = false).
  { unfold js_not. rewrite orb_true_iff, !negb_true_iff. done. }
  split; [split|].
  - intros Hthrow.
    destruct (js_not (prop item "id") || js_not (prop item "name")) eqn:Ev;
      [by apply Hguard|].
    rewrite (putItem_run env tn Hcfg net item w Ev) in Hthrow. cbv zeta in Hthrow.
    destruct net; [discriminate|]. destruct (key_of item); discriminate.
  - intros Hf. apply Hguard in Hf.
    by rewrite (putItem_invalid env tn Hcfg net item w Hf).
  - intros Hf. apply Hguard in Hf.
    by rewrite (putItem_invalid env tn Hcfg net item w Hf).
Qed.

Lemma putItem_rejects_falsy_fields_witness :
  (DynamoDBService.putItem sample_env None
     {[ "id" := JNum 0; "name" := JStr "zero" ]} fresh_world).2 = fresh_world.
Proof.
  refine (proj2 (putItem_rejects_falsy_fields sample_env "items-table" None
                   {[ "id" := JNum 0; "name" := JStr "zero" ]} fresh_world _) _).
  - split; [reflexivity | discriminate].
  - left. reflexivity.
Defined.

(** The message the error handler sends, for an error that has one of the
    three names it knows or whose own code, if any, is an HTTP error status:
    a fixed text for the three names, whatever the error's own message;
    otherwise the error's own message, or ['Internal Server Error'] when
    that is empty. *)
Theorem errorHandler_message env err req w :
  named_error err ∨ error_status err →
  ∃ resp fields w',
    errorHandler env err req w = (Normal resp, w')
    ∧ json resp = envelope fields
    ∧ (err_name err = "ValidationError" →
       fields !! "message" = Some (JStr "Validation Error"))
    ∧ (err_name err = "CastError" →
       fields !! "message" = Some (JStr "Invalid ID format"))
    ∧ (err_name err = "JsonWebTokenError" →
       fields !! "message" = Some (JStr "Invalid token"))
    ∧ (err_name err ≠ "ValidationError" → err_name err ≠ "CastError" →
       err_name err ≠ "JsonWebTokenError" →
       (err_message err ≠ "" →
        fields !! "message" = Some (JStr (err_message err)))
       ∧ (err_message err = "" →
          fields !! "message" = Some (JStr "Internal Server Error"))).
Proof.
  intros Hok.
  unfold errorHandler, mbind, M_bind, console_error, console_write,
    Date_now_toISOString, res_status_json, mret, M_ret, throw.
  set (sc := match err_statusCode err with
             | Some n => if Z.eqb n 0 then 500%Z else n
             | None => 500%Z
             end).
  set (msg := if str_not (err_message err) then "Internal Server Error"
              else err_message err).
  set (pick := if String.eqb (err_name err) "ValidationError"
               then (400%Z, "Validation Error")
               else if String.eqb (err_name err) "CastError"
                    then (400%Z, "Invalid ID format")
                    else if String.eqb (err_name err) "JsonWebTokenError"
                         then (401%Z, "Invalid token")
                         else (sc, msg)).
  assert (Hrange : (100 <=? pick.1)%Z && (pick.1 <=? 999)%Z = true).
  { subst pick.
    destruct (String.eqb_spec (err_name err) "ValidationError") as [|E1]; [done|].
    destruct (String.eqb_spec (err_name err) "CastError") as [|E2]; [done|].
    destruct (String.eqb_spec (err_name err) "JsonWebTokenError") as [|E3];
      [done|].
    destruct Hok as [[?|[?|?]] | Hok]; try congruence.
    unfold error_status in Hok. subst sc. cbn [fst].
    destruct (err_statusCode err) as [c|]; [|done].
    specialize (Hok c eq_refl). destruct (Z.eqb_spec c 0); [done|].
    apply andb_true_iff. split; apply Z.leb_le; lia. }
  destruct pick as [statusCode message] eqn:Epick.
  cbn [fst] in Hrange. rewrite Hrange.
  eexists _, _, _. split; [reflexivity|]. split; [reflexivity|].
  cbn [w_log clock ticks].
  fold (envelope_fields message statusCode (clock w (ticks w)) (path req)).
  assert (Hm : ((if negb (bool_decide (ENVIRONMENT env = Some "prod"))
                 then <["stack" := of_ostr (err_stack err)]> else id)
                  (envelope_fields message statusCode (clock w (ticks w)) (path req)))
               !! "message" = Some (JStr message)).
  { destruct (negb _); cbv [id].
    - rewrite lookup_insert_ne by done. apply envelope_fields_message.
    - apply envelope_fields_message. }
  rewrite Hm. subst pick.
  destruct (String.eqb_spec (err_name err) "ValidationError") as [E1|E1].
  { injection Epick as <- <-. repeat split; try done; congruence. }
  destruct (String.eqb_spec (err_name err) "CastError") as [E2|E2].
  { injection Epick as <- <-. repeat split; try done; congruence. }
  destruct (String.eqb_spec (err_name err) "JsonWebTokenError") as [E3|E3].
  { injection Epick as <- <-. repeat split; try done; congruence. }
  injection Epick as <- <-. subst msg.
  split; [congruence|]. split; [congruence|]. split; [congruence|].
  intros _ _ _. split.
  - intros Hne. apply str_not_false in Hne. by rewrite Hne.
  - intros ->. done.
Qed.

Lemma errorHandler_message_witness :
  ∃ resp fields w',
    errorHandler sample_env payload_too_large
      (sample_request "POST" "/api/items" ∅ ∅) fresh_world = (Normal resp, w')
    ∧ json resp = envelope fields
    ∧ fields !! "message" = Some (JStr "request entity too large").
Proof.
  assert (Hok : named_error payload_too_large ∨ error_status payload_too_large).
  { right. intros n [= <-]. lia. }
  destruct (errorHandler_message sample_env payload_too_large
              (sample_request "POST" "/api/items" ∅ ∅) fresh_world Hok)
    as (resp & fields & w' & Hrun & Hjson & _ & _ & _ & Hmsg).
  exists resp, fields, w'. split; [exact Hrun|]. split; [exact Hjson|].
  apply Hmsg; discriminate.
Defined.

(** The three names decide the status: an error named [ValidationError] or
    [CastError] is answered 400 and one named [JsonWebTokenError] 401,
    whatever code the error carries itself, and the envelope's [statusCode]
    is that status. *)
Theorem errorHandler_named_errors env err req w :
  named_error err →
  ∃ resp fields w',
    errorHandler env err req w = (Normal resp, w')
    ∧ json resp = envelope fields
    ∧ fields !! "statusCode" = Some (JNum (status resp))
    ∧ status resp = (if String.eqb (err_name err) "JsonWebTokenError"
                     then 401 else 400)%Z.
Proof.
  intros Hname.
  unfold errorHandler, mbind, M_bind, console_error, console_write,
    Date_now_toISOString, res_status_json, mret, M_ret, throw.
  assert (Hst : ∀ (c : Z) (m : string) (f : jsobj → jsobj),
            f = (if negb (bool_decide (ENVIRONMENT env = Some "prod"))
                 then <["stack" := of_ostr (err_stack err)]> else id) →
            f (envelope_fields m c (clock w (ticks w)) (path req)) !! "statusCode"
            = Some (JNum c)).
  { intros c m f ->. destruct (negb _); cbv [id].
    - rewrite lookup_insert_ne by done. apply envelope_fields_statusCode.
    - apply envelope_fields_statusCode. }
  destruct Hname as [-> | [-> | ->]]; cbn [String.eqb Ascii.eqb Bool.eqb andb];
    (eexists _, _, _; split; [reflexivity|]; split; [reflexivity|];
     split; [|reflexivity]);
    cbn [status json response_of w_log clock ticks]; by apply (Hst _ _ _ eq_refl).
Qed.

Lemma errorHandler_named_errors_witness :
  ∃ resp w',
    errorHandler sample_env
      {| err_name := "ValidationError"; err_message := "name must be a string";
         err_statusCode := Some 422%Z;
         err_stack := Some "ValidationError: name must be a string" |}
      (sample_request "POST" "/api/items" ∅ ∅) fresh_world = (Normal resp, w')
    ∧ status resp = 400%Z.
Proof.
  destruct (errorHandler_named_errors sample_env
              {| err_name := "ValidationError";
                 err_message := "name must be a string";
                 err_statusCode := Some 422%Z;
                 err_stack := Some "ValidationError: name must be a string" |}
              (sample_request "POST" "/api/items" ∅ ∅) fresh_world
              (or_introl eq_refl))
    as (resp & fields & w' & Hrun & _ & _ & Hst).
  exists resp, w'. split; assumption.
Defined.

(** An error with none of the three names whose own code is outside
    100..999 (and not 0) gets no envelope: [res.status(code).json(...)]
    throws a [RangeError], so the error handler throws in its turn, after
    it has logged the error.  The table and the commands sent are as they
    were. *)
Theorem errorHandler_refuses_invalid_status env err req w n :
  ¬ named_error err →
  err_statusCode err = Some n → n ≠ 0%Z → (n < 100 ∨ 999 < n)%Z →
  ∃ e w',
    errorHandler env err req w = (Throws e, w')
    ∧ err_name e = "RangeError"
    ∧ table w' = table w ∧ sent w' = sent w
    ∧ ∃ entry, level entry = LevelError ∧ entry ∈ console w'.
Proof.
  intros Hname Hn Hn0 Hrange.
  assert (N1 : String.eqb (err_name err) "ValidationError" = false)
    by (apply String.eqb_neq; intros H; apply Hname; by left).
  assert (N2 : String.eqb (err_name err) "CastError" = false)
    by (apply String.eqb_neq; intros H; apply Hname; right; by left).
  assert (N3 : String.eqb (err_name err) "JsonWebTokenError" = false)
    by (apply String.eqb_neq; intros H; apply Hname; right; by right).
  unfold errorHandler. rewrite N1, N2, N3, Hn.
  rewrite (proj2 (Z.eqb_neq n 0) Hn0).
  unfold mbind, M_bind, console_error, console_write, Date_now_toISOString,
    res_status_json, throw.
  assert (Hout : (100 <=? n)%Z && (n <=? 999)%Z = false).
  { apply andb_false_iff. destruct Hrange; [left | right]; apply Z.leb_gt; lia. }
  rewrite Hout. eexists _, _. split; [reflexivity|]. split; [done|].
  split; [done|]. split; [done|].
  eexists. split; [|cbn [console w_log w_tick]; apply elem_of_app; right;
                     apply list_elem_of_singleton; reflexivity].
  reflexivity.
Qed.

Lemma errorHandler_refuses_invalid_status_witness :
  ∃ e w',
    errorHandler sample_env
      {| err_name := "Error"; err_message := "boom";
         err_statusCode := Some 42%Z; err_stack := Some "Error: boom" |}
      (sample_request "GET" "/api/items" ∅ ∅) fresh_world = (Throws e, w')
    ∧ err_name e = "RangeError".
Proof.
  destruct (errorHandler_refuses_invalid_status sample_env
              {| err_name := "Error"; err_message := "boom";
                 err_statusCode := Some 42%Z; err_stack := Some "Error: boom" |}
              (sample_request "GET" "/api/items" ∅ ∅) fresh_world 42%Z)
    as (e & w' & Hrun & Hname & _).
  - intros [H | [H | H]]; discriminate H.
  - reflexivity.
  - discriminate.
  - left. reflexivity.
  - exists e, w'. split; assumption.
Defined.

(** * The CORS middleware *)

Lemma strip_prefix_Some pre s rest :
  app.strip_prefix pre s = Some rest ↔ s = pre +:+ rest.
Proof.
  revert s. induction pre as [|a pre IH]; intros s; simpl.
  - split; [by intros [= ->] | by intros ->].
  - destruct s as [|b s]; [split; discriminate|].
    destruct (Ascii.eqb_spec a b) as [->|Hab].
    + rewrite IH. split; [by intros -> | by intros [= ->]].
    + split; [discriminate | intros [= ? ?]; congruence].
Qed.

(** [str_includes] decides [includes]. *)
Lemma str_includes_spec s sub : str_includes s sub = true ↔ includes s sub.
Proof.
  split.
  - induction s as [|a s IH]; simpl.
    + destruct (app.strip_prefix sub "") as [rest|] eqn:E; [|discriminate].
      intros _. apply strip_prefix_Some in E. by exists "", rest.
    + destruct (app.strip_prefix sub (String a s)) as [rest|] eqn:E.
      * intros _. apply strip_prefix_Some in E. by exists "", rest.
      * intros H. destruct (IH H) as (pre & post & ->).
        by exists (String a pre), post.
  - intros (pre & post & ->). induction pre as [|a pre IH].
    + change ("" +:+ sub +:+ post) with (sub +:+ post).
      pose proof (proj2 (strip_prefix_Some sub (sub +:+ post) post) eq_refl) as E.
      destruct (sub +:+ post); simpl; by rewrite E.
    + simpl.
      destruct (app.strip_prefix sub (String a (pre +:+ sub +:+ post))); [done|].
      exact IH.
Qed.

Lemma ostr_or_nonempty a b : b ≠ "" → ostr_or a b ≠ "".
Proof.
  intros Hb. unfold ostr_or. destruct a as [a|]; [|done].
  destruct (str_not a) eqn:E; [done|]. by apply str_not_false.
Qed.

(** The value the middleware gives [Access-Control-Allow-Origin]. *)
Lemma cors_header_value env req h :
  (corsMiddleware env req h).1 !! "Access-Control-Allow-Origin" =
  Some (match header_of (headers req) "origin" with
        | Some origin =>
            if str_not origin then ""
            else if arr_includes
                      (if String.eqb (ostr_or (ENVIRONMENT env) "dev") "prod"
                       then ["https://www.learnermax.com"]
                       else ["http://localhost:3000"; "https://www.learnermax.com"])
                      origin
                    || (String.eqb (ostr_or (ENVIRONMENT env) "dev") "dev"
                        && str_includes origin ".vercel.app")
                 then origin
                 else ""
        | None => ""
        end).
Proof.
  unfold corsMiddleware.
  destruct (String.eqb (method req) "OPTIONS"); cbn [fst];
    rewrite !lookup_insert_ne by done; apply lookup_insert_eq.
Qed.

Lemma cors_header_echo env req h :
  ∃ v,
    (corsMiddleware env req h).1 !! "Access-Control-Allow-Origin" = Some v
    ∧ (v = "" ∨ header_of (headers req) "origin" = Some v).
Proof.
  eexists. split; [apply cors_header_value|].
  destruct (header_of (headers req) "origin") as [o|]; [|by left].
  destruct (str_not o); [by left|].
  destruct (_ || _); [by right | by left].
Qed.

(** The middleware answers [Access-Control-Allow-Origin] with the request's
    own [Origin] or with the empty string, never with anything else.  It
    echoes a non-empty origin exactly if that is
    [https://www.learnermax.com], or [http://localhost:3000] outside
    production, or contains [.vercel.app] when the environment is [dev]
    (which it is when [ENVIRONMENT] is unset or empty). *)
Theorem cors_allow_origin env req h :
  ∃ v,
    (corsMiddleware env req h).1 !! "Access-Control-Allow-Origin" = Some v
    ∧ (v = "" ∨ header_of (headers req) "origin" = Some v)
    ∧ (header_of (headers req) "origin" = None → v = "")
    ∧ (∀ o, header_of (headers req) "origin" = Some o → o ≠ "" →
         (v = o ↔
          o = "https://www.learnermax.com"
          ∨ (ostr_or (ENVIRONMENT env) "dev" ≠ "prod" ∧ o = "http://localhost:3000")
          ∨ (ostr_or (ENVIRONMENT env) "dev" = "dev" ∧ includes o ".vercel.app"))).
Proof.
  eexists. split; [apply cors_header_value|].
  destruct (header_of (headers req) "origin") as [o|]; [|by repeat split; auto].
  destruct (str_not o) eqn:Eo.
  { split; [by left|]. split; [done|]. intros o' [= <-] Hne.
    apply str_not_false in Hne. congruence. }
  assert (Hallowed :
    arr_includes
      (if String.eqb (ostr_or (ENVIRONMENT env) "dev") "prod"
       then ["https://www.learnermax.com"]
       else ["http://localhost:3000"; "https://www.learnermax.com"]) o
    || (String.eqb (ostr_or (ENVIRONMENT env) "dev") "dev"
        && str_includes o ".vercel.app") = true
    ↔ o = "https://www.learnermax.com"
      ∨ (ostr_or (ENVIRONMENT env) "dev" ≠ "prod" ∧ o = "http://localhost:3000")
      ∨ (ostr_or (ENVIRONMENT env) "dev" = "dev" ∧ includes o ".vercel.app")).
  { rewrite orb_true_iff, andb_true_iff, str_includes_spec, String.eqb_eq.
    unfold arr_includes.
    destruct (String.eqb_spec (ostr_or (ENVIRONMENT env) "dev") "prod") as [Ep|Ep];
      simpl; rewrite ?orb_false_r, ?orb_true_iff, !String.eqb_eq.
    - rewrite Ep. split.
      + intros [H | [H _]]; [by left | discriminate].
      + intros [H | [[H _] | [H _]]]; [by left | done | discriminate].
    - split.
      + intros [[H | H] | H]; [right; left; done | by left | right; right; done].
      + intros [H | [[_ H] | H]]; [left; by right | left; by left | by right]. }
  destruct (_ || _) eqn:Eal.
  - split; [by right|]. split; [done|]. intros o' [= <-] _.
    split; [intros _; by apply Hallowed | done].
  - split; [by left|]. split; [done|]. intros o' [= <-] Hne. split.
    + intros <-. done.
    + intros H. apply Hallowed in H. discriminate.
Qed.

(** In production only [https://www.learnermax.com] is ever echoed: every
    other origin, [localhost] and [.vercel.app] hosts included, gets the
    empty string. *)
Theorem cors_prod_allows_one_origin env req h v :
  ENVIRONMENT env = Some "prod" →
  (corsMiddleware env req h).1 !! "Access-Control-Allow-Origin" = Some v →
  v = "" ∨ v = "https://www.learnermax.com".
Proof.
  intros Hprod. rewrite cors_header_value, Hprod. simpl.
  destruct (header_of (headers req) "origin") as [o|]; [|intros [= <-]; by left].
  destruct (str_not o); [intros [= <-]; by left|].
  rewrite orb_false_r.
  destruct (String.eqb_spec o "https://www.learnermax.com") as [->|];
    intros [= <-]; auto.
Qed.

Lemma cors_prod_allows_one_origin_witness :
  ∃ v,
    (corsMiddleware {| SAMPLE_TABLE := Some "items-table"; ENVIRONMENT := Some "prod" |}
       {| method := "GET"; path := "/api/items";
          headers := {[ "origin" := JStr "http://localhost:3000" ]};
          params := ∅; body := ∅ |} ∅).1 !! "Access-Control-Allow-Origin" = Some v
    ∧ (v = "" ∨ v = "https://www.learnermax.com").
Proof.
  eexists. split; [reflexivity|].
  eapply (cors_prod_allows_one_origin
            {| SAMPLE_TABLE := Some "items-table"; ENVIRONMENT := Some "prod" |}
            {| method := "GET"; path := "/api/items";
               headers := {[ "origin" := JStr "http://localhost:3000" ]};
               params := ∅; body := ∅ |} ∅); reflexivity.
Defined.

(** In the [dev] environment (also when [ENVIRONMENT] is unset or empty) an
    origin is echoed as soon as [.vercel.app] occurs anywhere in it, not
    only at the end of the host. *)
Theorem cors_dev_allows_any_vercel_substring env req h pre post :
  ENVIRONMENT env = None ∨ ENVIRONMENT env = Some ""
  ∨ ENVIRONMENT env = Some "dev" →
  header_of (headers req) "origin" = Some (pre +:+ ".vercel.app" +:+ post) →
  (corsMiddleware env req h).1 !! "Access-Control-Allow-Origin"
  = Some (pre +:+ ".vercel.app" +:+ post).
Proof.
  intros Henv Ho. rewrite cors_header_value, Ho.
  assert (Hdev : ostr_or (ENVIRONMENT env) "dev" = "dev").
  { by destruct Henv as [-> | [-> | ->]]. }
  rewrite Hdev. simpl String.eqb.
  assert (Hne : str_not (pre +:+ ".vercel.app" +:+ post) = false).
  { apply str_not_false. by destruct pre. }
  rewrite Hne.
  rewrite (proj2 (str_includes_spec (pre +:+ ".vercel.app" +:+ post) ".vercel.app"))
    by (by exists pre, post).
  by rewrite orb_true_r.
Qed.

Lemma cors_dev_allows_any_vercel_substring_witness :
  (corsMiddleware sample_env
     {| method := "GET"; path := "/api/items";
        headers := {[ "origin" := JStr "https://x.vercel.app.example.org" ]};
        params := ∅; body := ∅ |} ∅).1 !! "Access-Control-Allow-Origin"
  = Some "https://x.vercel.app.example.org".
Proof.
  apply (cors_dev_allows_any_vercel_substring sample_env
           {| method := "GET"; path := "/api/items";
              headers := {[ "origin" := JStr "https://x.vercel.app.example.org" ]};
              params := ∅; body := ∅ |} ∅ "https://x" ".example.org").
  - right. right. reflexivity.
  - reflexivity.
Defined.

(** * The CORS layer in front of the routes, and the health route *)

(** A preflight request is answered by the middleware itself: status 200,
    no body, the CORS headers set; the routes behind it do not run, so the
    world is as it was, whatever the path and the body of the request. *)
Theorem preflight_never_reaches_the_routes env routes req w :
  method req = "OPTIONS" →
  ∃ h,
    app_use_cors env routes req w
    = (Normal {| reply_headers := h; reply_status := 200; reply_body := None |}, w)
    ∧ h !! "Access-Control-Allow-Credentials" = Some "true"
    ∧ h !! "Access-Control-Allow-Methods" = Some "OPTIONS,POST,GET,PUT,DELETE"
    ∧ (h !! "Access-Control-Allow-Origin" = Some ""
       ∨ h !! "Access-Control-Allow-Origin" = header_of (headers req) "origin").
Proof.
  intros Hm.
  destruct (cors_header_echo env req ∅) as (v & Hv & Hor).
  unfold app_use_cors. unfold corsMiddleware in *. rewrite Hm in *.
  cbn [String.eqb Ascii.eqb Bool.eqb fst] in *.
  eexists. split; [reflexivity|].
  split; [apply lookup_insert_eq|].
  split; [rewrite lookup_insert_ne by done; apply lookup_insert_eq|].
  rewrite Hv. destruct Hor as [-> | ->]; auto.
Qed.

Lemma preflight_never_reaches_the_routes_witness :
  ∃ h,
    app_use_cors sample_env (app.POST_items sample_env None)
      (sample_request "OPTIONS" "/api/items" ∅
         {[ "id" := JStr "id1"; "name" := JStr "name1" ]}) fresh_world
    = (Normal {| reply_headers := h; reply_status := 200; reply_body := None |},
       fresh_world)
    ∧ h !! "Access-Control-Allow-Credentials" = Some "true".
Proof.
  destruct (preflight_never_reaches_the_routes sample_env
              (app.POST_items sample_env None)
              (sample_request "OPTIONS" "/api/items" ∅
                 {[ "id" := JStr "id1"; "name" := JStr "name1" ]})
              fresh_world eq_refl) as (h & Hrun & Hc & _).
  exists h. split; [exact Hrun | exact Hc].
Defined.

(** Any other method goes on to the routes: the reply has the status and
    body the route answered, under the CORS headers, and an error thrown
    behind the middleware is thrown on. *)
Theorem cors_layer_passes_other_methods env routes req w :
  method req ≠ "OPTIONS" →
  match routes req w with
  | (Normal r, w') =>
      ∃ h, app_use_cors env routes req w
           = (Normal {| reply_headers := h; reply_status := status r;
                        reply_body := Some (json r) |}, w')
        ∧ h !! "Access-Control-Allow-Credentials" = Some "true"
        ∧ (h !! "Access-Control-Allow-Origin" = Some ""
           ∨ h !! "Access-Control-Allow-Origin" = header_of (headers req) "origin")
  | (Throws e, w') => app_use_cors env routes req w = (Throws e, w')
  end.
Proof.
  intros Hm. apply String.eqb_neq in Hm.
  destruct (cors_header_echo env req ∅) as (v & Hv & Hor).
  unfold app_use_cors. unfold corsMiddleware in *. rewrite Hm in *.
  cbn [fst] in *. unfold mbind, M_bind.
  destruct (routes req w) as [[r|e] w']; [|done].
  eexists. split; [reflexivity|].
  split; [apply lookup_insert_eq|].
  rewrite Hv. destruct Hor as [-> | ->]; auto.
Qed.

Lemma cors_layer_passes_other_methods_witness :
  ∃ h,
    app_use_cors sample_env (app.GET_items sample_env None)
      (sample_request "GET" "/api/items" ∅ ∅) fresh_world
    = (Normal {| reply_headers := h; reply_status := 200;
                 reply_body := Some (JArr []) |},
       (app.GET_items sample_env None
          (sample_request "GET" "/api/items" ∅ ∅) fresh_world).2)
    ∧ h !! "Access-Control-Allow-Credentials" = Some "true".
Proof.
  pose proof (cors_layer_passes_other_methods sample_env
                (app.GET_items sample_env None)
                (sample_request "GET" "/api/items" ∅ ∅) fresh_world
                ltac:(discriminate)) as H.
  destruct H as (h & Hrun & Hc & _).
  exists h. split; [exact Hrun | exact Hc].
Defined.

(** The health route answers 200 with status ["ok"] and a non-empty
    environment name (["dev"] when [ENVIRONMENT] is unset or empty) without
    looking at the table name or the table: it does so also when
    [SAMPLE_TABLE] is unset, and sends no command. *)
Theorem health_ignores_the_store env req w :
  ∃ e w',
    app_health env req w
    = (Normal (res_json (JObj {[ "status" := JStr "ok";
                                 "timestamp" := JStr (clock w (ticks w));
                                 "environment" := JStr e ]})), w')
    ∧ e ≠ ""
    ∧ (ENVIRONMENT env = None ∨ ENVIRONMENT env = Some "" → e = "dev")
    ∧ (∀ x, ENVIRONMENT env = Some x → x ≠ "" → e = x)
    ∧ table w' = table w ∧ sent w' = sent w ∧ console w' = console w.
Proof.
  eexists _, _. split; [reflexivity|]. split; [by apply ostr_or_nonempty|].
  split; [by intros [-> | ->]|]. split; [|done].
  intros x -> Hx. simpl. apply str_not_false in Hx. by rewrite Hx.
Qed.

(** * The Lambda handler *)

Section LambdaFacts.

Context (JSON_stringify : list jsobj → string).

(** A call with a method other than GET throws an error that names the
    method, before anything is logged or sent. *)
Theorem lambda_rejects_other_methods env net event w :
  httpMethod event ≠ "GET" →
  getAllItemsHandler JSON_stringify env net event w
  = (Throws (new_Error ("getAllItems only accept GET method, you tried: "
                        +:+ httpMethod event)), w).
Proof.
  intros Hm. apply String.eqb_neq in Hm.
  unfold getAllItemsHandler. by rewrite Hm.
Qed.

(** What the handler answers to a GET. *)
Lemma lambda_GET_run env net event w :
  httpMethod event = "GET" →
  ∃ w',
    getAllItemsHandler JSON_stringify env net event w =
    (Normal
       {| statusCode := 200;
          response_headers :=
            {[ "Access-Control-Allow-Headers" :=
                 "Content-Type,X-Amz-Date,Authorization,X-Api-Key,X-Amz-Security-Token";
               "Access-Control-Allow-Origin" :=
                 match
                   match event_headers event with
                   | Some h =>
                       match h !! "origin" with
                       | Some o => if str_not o then h !! "Origin" else Some o
                       | None => h !! "Origin"
                       end
                   | None => None
                   end
                 with
                 | Some origin =>
                     if str_not origin then ""
                     else if arr_includes
                               (if String.eqb (ostr_or (ENVIRONMENT env) "dev") "prod"
                                then ["https://www.learnermax.com"]
                                else ["http://localhost:3000";
                                      "https://www.learnermax.com"]) origin
                             || (String.eqb (ostr_or (ENVIRONMENT env) "dev") "dev"
                                 && str_includes origin ".vercel.app")
                          then origin
                          else ""
                 | None => ""
                 end;
               "Access-Control-Allow-Methods" := "OPTIONS,POST,GET,PUT,DELETE" ]};
          response_body :=
            match net with
            | None =>
                if str_not (default "" (SAMPLE_TABLE env)) then None
                else Some (JSON_stringify (one_page w))
            | Some _ => None
            end |}, w')
    ∧ table w' = table w
    ∧ (∀ e, net = Some e ∨ (net = None ∧ e = ValidationException
                            ∧ str_not (default "" (SAMPLE_TABLE env)) = true) →
         LogEntry LevelLog [LStr "Error"; LErr e] ∈ console w').
Proof.
  intros Hm. unfold getAllItemsHandler. rewrite Hm. cbn [String.eqb Ascii.eqb Bool.eqb negb].
  unfold mbind, M_bind, try_catch, console_info, console_log, console_write,
    send, ddb_exec, mret, M_ret.
  cbn [TableName].
  destruct net as [e|]; [|destruct (str_not (default "" (SAMPLE_TABLE env)))];
    cbn [fst snd fmap option_fmap option_map Items];
    (eexists; split; [reflexivity|]); (split; [done|]).
  - intros e' [[= <-] | [[=] _]]. cbn [console w_log w_sent].
    rewrite !elem_of_app. left. right. apply list_elem_of_singleton. done.
  - intros e' [[=] | (_ & -> & _)]. cbn [console w_log w_sent].
    rewrite !elem_of_app. left. right. apply list_elem_of_singleton. done.
  - intros e' [[=] | (_ & _ & [=])].
Qed.

(** The handler answers every GET with status 200 and never throws.  When
    the scan fails, as it does when the service rejects it or when
    [SAMPLE_TABLE] is unset or empty, the error is written to the console
    and the response has no body.  When the scan succeeds, the body is the
    serialised items of the one page that it returns, the first items of
    the table in scan order: the handler sends one [Scan] and does not ask
    for the rest.  The table is not changed. *)
Theorem lambda_get_always_answers_200 env net event w :
  httpMethod event = "GET" →
  ∃ resp w',
    getAllItemsHandler JSON_stringify env net event w = (Normal resp, w')
    ∧ statusCode resp = 200%Z
    ∧ table w' = table w
    ∧ (∀ e, net = Some e →
         response_body resp = None
         ∧ LogEntry LevelLog [LStr "Error"; LErr e] ∈ console w')
    ∧ (SAMPLE_TABLE env = None ∨ SAMPLE_TABLE env = Some "" →
       response_body resp = None
       ∧ ∃ e, LogEntry LevelLog [LStr "Error"; LErr e] ∈ console w')
    ∧ (net = None → ∀ tn, configured env tn →
       response_body resp = Some (JSON_stringify (one_page w))
       ∧ one_page w `prefix_of` scan_order (table w)
       ∧ (fits_one_page w → one_page w = scan_order (table w))).
Proof.
  intros Hm.
  destruct (lambda_GET_run env net event w Hm) as (w' & Hrun & Ht & Hlog).
  eexists _, w'. split; [exact Hrun|]. split; [done|]. split; [done|].
  cbn [response_body]. split; [|split].
  - intros e ->. split; [done|]. apply Hlog. by left.
  - intros Hunset.
    assert (Hn : str_not (default "" (SAMPLE_TABLE env)) = true)
      by (by destruct Hunset as [-> | ->]).
    rewrite Hn. split; [by destruct net|].
    destruct net as [e|].
    + exists e. apply Hlog. by left.
    + exists ValidationException. apply Hlog. by right.
  - intros -> tn [Htn Hne]. rewrite Htn. cbv [default id].
    rewrite (proj2 (str_not_false tn) Hne).
    split; [done|]. split; [apply prefix_take | apply one_page_whole].
Qed.

(** The handler and the Express middleware decide
    [Access-Control-Allow-Origin] alike: for the same environment and the
    same [origin] header (and no header spelled [Origin]) the two values
    are equal. *)
Theorem lambda_cors_agrees_with_middleware env net event hs req h w :
  httpMethod event = "GET" →
  event_headers event = Some hs →
  hs !! "origin" = header_of (headers req) "origin" →
  hs !! "Origin" = None →
  ∃ resp w',
    getAllItemsHandler JSON_stringify env net event w = (Normal resp, w')
    ∧ response_headers resp !! "Access-Control-Allow-Origin"
      = (corsMiddleware env req h).1 !! "Access-Control-Allow-Origin".
Proof.
  intros Hm Hhs Ho HO.
  destruct (lambda_GET_run env net event w Hm) as (w' & Hrun & _).
  eexists _, w'. split; [exact Hrun|].
  rewrite cors_header_value. cbn [response_headers].
  rewrite lookup_insert_ne by done. rewrite lookup_insert_eq.
  rewrite Hhs, Ho, HO.
  destruct (header_of (headers req) "origin") as [o|]; [|done].
  destruct (str_not o) eqn:E; [done|]. by rewrite E.
Qed.

End LambdaFacts.

Lemma lambda_rejects_other_methods_witness :
  getAllItemsHandler (λ _, "[]") sample_env None
    {| httpMethod := "POST"; event_path := "/"; event_headers := None |} fresh_world
  = (Throws (new_Error "getAllItems only accept GET method, you tried: POST"),
     fresh_world).
Proof.
  apply (lambda_rejects_other_methods (λ _, "[]") sample_env None
           {| httpMethod := "POST"; event_path := "/"; event_headers := None |}
           fresh_world).
  discriminate.
Defined.

Lemma lambda_get_always_answers_200_witness :
  ∃ resp w',
    getAllItemsHandler (λ _, "[]") sample_env (Some timeout_error)
      {| httpMethod := "GET"; event_path := "/"; event_headers := None |}
      fresh_world = (Normal resp, w')
    ∧ statusCode resp = 200%Z
    ∧ response_body resp = None.
Proof.
  destruct (lambda_get_always_answers_200 (λ _, "[]") sample_env
              (Some timeout_error)
              {| httpMethod := "GET"; event_path := "/"; event_headers := None |}
              fresh_world eq_refl)
    as (resp & w' & Hrun & Hs & _ & Herr & _).
  exists resp, w'. split; [exact Hrun|]. split; [exact Hs|].
  exact (proj1 (Herr timeout_error eq_refl)).
Defined.

Lemma lambda_cors_agrees_with_middleware_witness :
  ∃ resp w',
    getAllItemsHandler (λ _, "[]") sample_env None
      {| httpMethod := "GET"; event_path := "/";
         event_headers := Some {[ "origin" := "http://localhost:3000" ]} |}
      fresh_world = (Normal resp, w')
    ∧ response_headers resp !! "Access-Control-Allow-Origin"
      = (corsMiddleware sample_env
           {| method := "GET"; path := "/api/items";
              headers := {[ "origin" := JStr "http://localhost:3000" ]};
              params := ∅; body := ∅ |} ∅).1 !! "Access-Control-Allow-Origin".
Proof.
  apply (lambda_cors_agrees_with_middleware (λ _, "[]") sample_env None
           {| httpMethod := "GET"; event_path := "/";
              event_headers := Some {[ "origin" := "http://localhost:3000" ]} |}
           {[ "origin" := "http://localhost:3000" ]}
           {| method := "GET"; path := "/api/items";
              headers := {[ "origin" := JStr "http://localhost:3000" ]};
              params := ∅; body := ∅ |} ∅ fresh_world); reflexivity.
Defined.

(** * The test data generator *)

Lemma append_nil_l (s : string) : "" +:+ s = s.
Proof. reflexivity. Qed.

Lemma append_cons_l (a : ascii) (s t : string) :
  String a s +:+ t = String a (s +:+ t).
Proof. reflexivity. Qed.

Lemma dashless_app_dash (s d : string) : ¬ dashless (s +:+ String "-" d).
Proof.
  induction s as [|c s IH];
    repeat (rewrite append_nil_l || rewrite append_cons_l).
  - by intros [H _].
  - intros [_ H]. by apply IH.
Qed.

(** A string ends in at most one way with a dash followed by a dashless
    string. *)
Lemma peel_dash_suffix (s1 s2 d1 d2 : string) :
  dashless d1 → dashless d2 →
  s1 +:+ "-" +:+ d1 = s2 +:+ "-" +:+ d2 → s1 = s2 ∧ d1 = d2.
Proof.
  intros H1 H2. revert s2.
  induction s1 as [|a s1 IH]; intros [|b s2];
    repeat (rewrite append_nil_l || rewrite append_cons_l).
  - by intros [= ->].
  - intros [= <- ->]. by apply dashless_app_dash in H1.
  - intros [= -> <-]. by apply dashless_app_dash in H2.
  - intros Heq. injection Heq as Hab H. subst b.
    destruct (IH _ H) as [-> ->]. done.
Qed.

Lemma dashless_pretty_N_go (x : N) (s : string) :
  dashless s → dashless (pretty_N_go x s).
Proof.
  revert s. induction (N.lt_wf_0 x) as [x _ IH]; intros s Hs.
  destruct (decide (0 < x)%N) as [Hx|Hx].
  - rewrite pretty_N_go_step by done.
    apply IH; [by apply N.div_lt|]. split; [|done].
    unfold pretty_N_char. by repeat case_match.
  - assert (x = 0%N) as -> by lia. by rewrite pretty_N_go_0.
Qed.

Lemma dashless_pretty_N (x : N) : dashless (pretty x).
Proof.
  unfold pretty, pretty_N. case_decide; [by repeat split|].
  by apply dashless_pretty_N_go.
Qed.

Lemma dashless_pretty_nat (n : nat) : dashless (pretty n).
Proof. apply dashless_pretty_N. Qed.

(** With [unique] left on, two calls that start from different values of
    the counter, both below 2^53, produce different ids, whatever their
    prefixes and timestamps; and each such call advances the counter by
    one.  (At 2^53 the counter no longer advances.) *)
Theorem generateItem_unique_ids o1 o2 now1 now2 c1 c2 :
  opt_unique o1 ≠ Some false → opt_unique o2 ≠ Some false → c1 ≠ c2 →
  (c1 < 2 ^ 53)%N → (c2 < 2 ^ 53)%N →
  item_id (generateItem o1 now1 c1).1 ≠ item_id (generateItem o2 now2 c2).1
  ∧ (generateItem o1 now1 c1).2 = (c1 + 1)%N.
Proof.
  intros Hu1 Hu2 Hc Hc1 Hc2.
  assert (default true (opt_unique o1) = true) as E1
    by (destruct (opt_unique o1) as [[]|]; done).
  assert (default true (opt_unique o2) = true) as E2
    by (destruct (opt_unique o2) as [[]|]; done).
  assert (js_incr c1 = (c1 + 1)%N) as I1
    by (unfold js_incr; by rewrite (proj2 (N.ltb_lt _ _) Hc1)).
  assert (js_incr c2 = (c2 + 1)%N) as I2
    by (unfold js_incr; by rewrite (proj2 (N.ltb_lt _ _) Hc2)).
  unfold generateItem. rewrite E1, E2, I1, I2. cbn [fst snd item_id].
  split; [|done].
  intros Heq.
  apply peel_dash_suffix in Heq as [_ Heq]; try apply dashless_pretty_N.
  apply (inj pretty) in Heq. lia.
Qed.

Lemma generateItem_unique_ids_witness :
  item_id (generateItem {| opt_prefix := Some "a-1"; opt_timestamp := Some false;
                           opt_unique := None |} 0 1).1
  ≠ item_id (generateItem {| opt_prefix := Some "a"; opt_timestamp := Some false;
                             opt_unique := None |} 0 0).1.
Proof.
  apply (generateItem_unique_ids
           {| opt_prefix := Some "a-1"; opt_timestamp := Some false;
              opt_unique := None |}
           {| opt_prefix := Some "a"; opt_timestamp := Some false;
              opt_unique := None |} 0 0 1 0); (discriminate || reflexivity).
Defined.

(** The id of an element of [generateItems] determines its index. *)
Lemma generateItems_index_inj options n n' c c' k k' :
  item_id (generateItem
             {| opt_prefix := Some (ostr_or (opt_prefix options) "test-item"
                                    +:+ "-" +:+ pretty (k + 1));
                opt_timestamp := opt_timestamp options;
                opt_unique := opt_unique options |} n c).1
  = item_id (generateItem
               {| opt_prefix := Some (ostr_or (opt_prefix options) "test-item"
                                      +:+ "-" +:+ pretty (k' + 1));
                  opt_timestamp := opt_timestamp options;
                  opt_unique := opt_unique options |} n' c').1 →
  k = k'.
Proof.
  unfold generateItem. cbn [opt_prefix opt_timestamp opt_unique default fst item_id].
  intros Heq.
  assert (Hbase : ostr_or (opt_prefix options) "test-item" +:+ "-" +:+ pretty (k + 1)
                  = ostr_or (opt_prefix options) "test-item" +:+ "-"
                    +:+ pretty (k' + 1)).
  { destruct (default true (opt_unique options));
      destruct (default true (opt_timestamp options)).
    - apply peel_dash_suffix in Heq as [Heq _]; try apply dashless_pretty_N.
      apply peel_dash_suffix in Heq as [Heq _]; try apply dashless_pretty_N. done.
    - apply peel_dash_suffix in Heq as [Heq _]; try apply dashless_pretty_N. done.
    - apply peel_dash_suffix in Heq as [Heq _]; try apply dashless_pretty_N. done.
    - done. }
  apply peel_dash_suffix in Hbase as [_ Hk]; try apply dashless_pretty_nat.
  apply (inj pretty) in Hk. lia.
Qed.

(** Every element of [generateItems_from] is made by [generateItem] from the
    indexed prefix of its position. *)
Lemma generateItems_from_elem options now count index c it :
  it ∈ (generateItems_from options now index count c).1 →
  ∃ k c', (index ≤ k)%nat ∧
    it = (generateItem
            {| opt_prefix := Some (ostr_or (opt_prefix options) "test-item"
                                   +:+ "-" +:+ pretty (k + 1));
               opt_timestamp := opt_timestamp options;
               opt_unique := opt_unique options |} (now k) c').1.
Proof.
  revert index c. induction count as [|count IH]; intros index c;
    cbn [generateItems_from].
  { intros H. by apply elem_of_nil in H. }
  destruct (generateItem _ (now index) c) as [item c1] eqn:E1.
  destruct (generateItems_from options now (S index) count c1) as [items c2] eqn:E2.
  cbn [fst]. intros [-> | Hin]%elem_of_cons.
  - exists index, c. split; [lia|]. by rewrite E1.
  - specialize (IH (S index) c1). rewrite E2 in IH.
    destruct (IH Hin) as (k & c' & Hk & ->). exists k, c'. split; [lia | done].
Qed.

Lemma generateItems_from_length options now count index c :
  length (generateItems_from options now index count c).1 = count.
Proof.
  revert index c. induction count as [|count IH]; intros index c;
    cbn [generateItems_from]; [done|].
  destruct (generateItem _ (now index) c) as [item c1].
  specialize (IH (S index) c1).
  destruct (generateItems_from options now (S index) count c1) as [items c2].
  cbn [fst length] in *. by rewrite IH.
Qed.

Lemma generateItems_from_NoDup options now count index c :
  NoDup (item_id <$> (generateItems_from options now index count c).1).
Proof.
  revert index c. induction count as [|count IH]; intros index c;
    cbn [generateItems_from].
  { constructor. }
  destruct (generateItem _ (now index) c) as [item c1] eqn:E1.
  pose proof (generateItems_from_elem options now count (S index) c1) as Helem.
  specialize (IH (S index) c1).
  destruct (generateItems_from options now (S index) count c1) as [items c2].
  cbn [fst] in *. rewrite fmap_cons. constructor; [|done].
  intros (it & Hid & Hin)%list_elem_of_fmap.
  destruct (Helem it Hin) as (k & c' & Hk & ->).
  assert (item = (generateItem
            {| opt_prefix := Some (ostr_or (opt_prefix options) "test-item"
                                   +:+ "-" +:+ pretty (index + 1));
               opt_timestamp := opt_timestamp options;
               opt_unique := opt_unique options |} (now index) c).1) as ->
    by (by rewrite E1).
  apply generateItems_index_inj in Hid. lia.
Qed.

(** [generateItems(count, options)] returns [count] items whose ids are
    pairwise different, whatever the options, the clock and the counter. *)
Theorem generateItems_distinct_ids count options now c :
  length (generateItems count options now c).1 = count
  ∧ NoDup (item_id <$> (generateItems count options now c).1).
Proof.
  split; [apply generateItems_from_length | apply generateItems_from_NoDup].
Qed.

Lemma append_empty_inv (a b : string) : a +:+ b = "" → a = "" ∧ b = "".
Proof.
  destruct a as [|x a]; [done|]. rewrite append_cons_l. discriminate.
Qed.

Lemma generateItems_nonempty count options now c it :
  it ∈ (generateItems count options now c).1 →
  item_id it ≠ "" ∧ item_name it ≠ "".
Proof.
  intros Hin. apply generateItems_from_elem in Hin as (k & c' & _ & ->).
  unfold generateItem.
  cbn [opt_prefix opt_timestamp opt_unique default fst item_id item_name].
  split; [|done].
  assert (Hbase : ostr_or (opt_prefix options) "test-item" +:+ "-" +:+ pretty (k + 1)
                  ≠ "").
  { intros [_ H]%append_empty_inv. discriminate H. }
  destruct (default true (opt_unique options));
    destruct (default true (opt_timestamp options)); try done.
  - intros [[H _]%append_empty_inv _]%append_empty_inv. done.
  - intros [H _]%append_empty_inv. done.
  - intros [H _]%append_empty_inv. done.
Qed.

(** What the generator produces, the router accepts: a POST whose body is an
    item of [generateItems] is never answered 400, and with the table name
    set and the store call succeeding it is answered 200 and stored under
    the item's id. *)
Theorem generated_items_pass_the_guard count options now c it env net req w :
  it ∈ (generateItems count options now c).1 →
  body req = body_of it →
  (∃ resp w', app.POST_items env net req w = (Normal resp, w')
     ∧ status resp ≠ 400%Z)
  ∧ (∀ tn, configured env tn →
       ∃ resp w' r,
         app.POST_items env None req w = (Normal resp, w')
         ∧ status resp = 200%Z
         ∧ table w' !! item_id it = Some r
         ∧ r !! "name" = Some (JStr (item_name it))).
Proof.
  intros Hin Hbody.
  destruct (generateItems_nonempty _ _ _ _ _ Hin) as [Hid Hname].
  assert (Hpid : prop (body req) "id" = JStr (item_id it)).
  { rewrite Hbody. unfold prop, body_of. by simplify_map_eq. }
  assert (Hpname : prop (body req) "name" = JStr (item_name it)).
  { rewrite Hbody. unfold prop, body_of. by simplify_map_eq. }
  assert (Htid : truthy (prop (body req) "id") = true).
  { rewrite Hpid. simpl. apply str_not_false in Hid. unfold str_not in Hid.
    by rewrite Hid. }
  assert (Htname : truthy (prop (body req) "name") = true).
  { rewrite Hpname. simpl. apply str_not_false in Hname. unfold str_not in Hname.
    by rewrite Hname. }
  split.
  - destruct (POST_items_cases env net req w) as (resp & w' & Hrun & Hcase).
    exists resp, w'. split; [exact Hrun|].
    destruct Hcase as [(Hg & _) | [(_ & -> & _) | (_ & -> & _)]]; [|done|done].
    rewrite (js_not_both _ _ Htid Htname) in Hg. discriminate.
  - intros tn Hcfg.
    destruct (POST_items_accepts env tn req (item_id it) w Hcfg Hpid Hid Htname)
      as (w' & Hrun & Ht).
    eexists _, w', _. split; [exact Hrun|]. split; [done|].
    split; [rewrite Ht; apply lookup_insert_eq|].
    rewrite stamped_name, Hpname. by simplify_map_eq.
Qed.

Lemma generated_items_pass_the_guard_witness :
  ∃ resp w',
    app.POST_items sample_env None
      (sample_request "POST" "/api/items" ∅
         (body_of {| item_id := "perf-test-1-1";
                     item_name := "Test Learning Item - perf-test-1-1" |}))
      fresh_world = (Normal resp, w')
    ∧ status resp ≠ 400%Z.
Proof.
  refine (proj1 (generated_items_pass_the_guard 2
            {| opt_prefix := Some "perf-test"; opt_timestamp := Some false;
               opt_unique := Some true |} (λ _, 0%N) 0
            {| item_id := "perf-test-1-1";
               item_name := "Test Learning Item - perf-test-1-1" |}
            sample_env None
            (sample_request "POST" "/api/items" ∅
               (body_of {| item_id := "perf-test-1-1";
                           item_name := "Test Learning Item - perf-test-1-1" |}))
            fresh_world _ _)).
  - apply list_elem_of_here.
  - reflexivity.
Defined.

(** * The path in the error envelope *)

Lemma router_request_path req rest :
  path req = "/api/items" +:+ rest → rest ≠ "" →
  path (app.router_request req) = rest.
Proof.
  intros Hp Hrest. unfold app.router_request. cbn [path].
  rewrite (proj2 (strip_prefix_Some app.mount (path req) rest)) by exact Hp.
  by destruct rest.
Qed.

(** The [path] of an error envelope depends on who writes it: the 404 that
    the router writes for an unknown id carries the path inside the router
    (without [/api/items]), the 500 that the error handler writes for the
    same request carries the full path. *)
Theorem envelope_path_depends_on_the_layer env tn req i rest w :
  configured env tn →
  path req = "/api/items" +:+ rest → rest ≠ "" →
  params req !! "id" = Some i → i ≠ "" →
  (table w !! i = None →
   ∃ resp w' fields,
     app.GET_item env None req w = (Normal resp, w')
     ∧ status resp = 404%Z ∧ json resp = envelope fields
     ∧ fields !! "path" = Some (JStr rest))
  ∧ (∀ e,
       ∃ resp w' fields,
         app.GET_item env (Some e) req w = (Normal resp, w')
         ∧ status resp = 500%Z ∧ json resp = envelope fields
         ∧ fields !! "path" = Some (JStr ("/api/items" +:+ rest))).
Proof.
  intros Hcfg Hpath Hrest Hp Hi. split.
  - intros Hnone.
    destruct (get_id_absent env tn (app.router_request req) i w Hcfg Hp Hi Hnone)
      as (w' & Hget & _).
    eexists _, w', _. split; [apply items_route_normal, Hget|].
    split; [done|]. split; [reflexivity|].
    rewrite envelope_fields_path. by rewrite (router_request_path req rest).
  - intros e.
    destruct (GET_item_raises env tn Hcfg (Some e) e req i w Hp Hi eq_refl)
      as (w' & Hrun & _).
    rewrite Hrun, errorHandler_new_Error by done.
    eexists _, _, _. split; [reflexivity|]. split; [done|]. split; [reflexivity|].
    rewrite <- Hpath.
    destruct (negb _); cbv [id].
    + rewrite lookup_insert_ne by done. apply envelope_fields_path.
    + apply envelope_fields_path.
Qed.

Lemma envelope_path_depends_on_the_layer_witness :
  ∃ resp w' fields,
    app.GET_item sample_env None
      (sample_request "GET" "/api/items/ghost" {[ "id" := "ghost" ]} ∅) fresh_world
    = (Normal resp, w')
    ∧ status resp = 404%Z ∧ json resp = envelope fields
    ∧ fields !! "path" = Some (JStr "/ghost").
Proof.
  refine (proj1 (envelope_path_depends_on_the_layer sample_env "items-table"
                   (sample_request "GET" "/api/items/ghost" {[ "id" := "ghost" ]} ∅)
                   "ghost" "/ghost" fresh_world _ _ _ _ _) _).
  - split; [reflexivity | discriminate].
  - reflexivity.
  - discriminate.
  - reflexivity.
  - discriminate.
  - reflexivity.
Defined.
